(** * Forensic AI Analyst (app.py): data-acquisition pipeline

    A shallow embedding of [src/app.py]: the two page extractors
    ([extract_transcript_links], [get_company_ratios]), the remote ratio
    fetcher ([get_financial_data]), the document text extractor
    ([read_transcript]), the retried generation call ([generate_analysis]),
    the handler of the "Start Deep Research" button, and the check of the
    two keys the script makes when it starts.

    Python values are modelled as follows.
    - [str] is [string]; one [ascii] is one character (code points below 256),
      so lengths and slices count characters.
    - [dict] is an association list in insertion order ([dict_set] keeps the
      position of a key that is already there, as Python does).
    - JSON data returned by the scraping actor is [json].
    - Calls that leave the process (HTTP, the actor, the PDF reader, the
      generation service) are fields of a [World]; every call is logged as an
      [event], and a call that raises returns [Raise e].  The world answers a
      call by its arguments, the generation service also by the number of the
      attempt.
    - A function body is a computation [M A]: its outcome together with the
      events it produced, in order.
    - The libraries the program calls are modelled by what they are
      documented to do: BeautifulSoup's html.parser tree builder and its
      [find], [find_all], [string] and [get_text] on element trees with
      text and comment leaves (declarations, processing instructions and
      CDATA sections left out), [raise_for_status] of requests, and the
      retry decorator of tenacity with its wait.
    - [tag.string] is the one search that recurses in the interpreter; the
      calls it may still nest are a field of the [World].
    - Every string of a page has its class: plain text, a comment, or the
      text of a script, style, template or ruby-text element, which text
      extraction leaves out.
    - Exceptions are the subclasses of [Exception]; the interface calls
      ([st.error], [st.stop], ...) are events, the diagnostic [print] calls
      and the generation configuration are left out. *)

From Stdlib Require Import String Ascii List Bool Arith ZArith NArith QArith Lia Lqa.
From Stdlib Require DecimalString.
Import ListNotations.

Set Warnings "-register-all".

Close Scope Q_scope.
Open Scope list_scope.
Open Scope string_scope.

(* ================================================================= *)
(** ** Python strings *)

Module PyStr.

(** [str.isspace] on one character: the whitespace that [str.strip()] and
    [\S] use, for code points below 256. *)
Definition isspace (c : ascii) : bool :=
  let n := N_of_ascii c in
  (((9 <=? n) && (n <=? 13)) || ((28 <=? n) && (n <=? 32))
   || (n =? 133) || (n =? 160))%N.

Fixpoint lstrip (s : string) : string :=
  match s with
  | EmptyString => EmptyString
  | String c r => if isspace c then lstrip r else s
  end.

Fixpoint rstrip (s : string) : string :=
  match s with
  | EmptyString => EmptyString
  | String c r =>
      match rstrip r with
      | EmptyString => if isspace c then EmptyString else String c EmptyString
      | r' => String c r'
      end
  end.

(** [s.strip()] *)
Definition strip (s : string) : string := rstrip (lstrip s).

(** [s.startswith(p)] *)
Definition startswith (p s : string) : bool := prefix p s.

(** Truth value of a string: [if s:] *)
Definition nonempty (s : string) : bool :=
  match s with EmptyString => false | _ => true end.

(** [s.replace(old, new)]: left to right, non-overlapping.  [skip] counts the
    characters of a matched [old] that are still to be passed over. *)
Fixpoint replace_from (old new : string) (skip : nat) (s : string) : string :=
  match s with
  | EmptyString => EmptyString
  | String c r =>
      match skip with
      | S k => replace_from old new k r
      | O =>
          if prefix old s
          then new ++ replace_from old new (String.length old - 1) r
          else String c (replace_from old new 0 r)
      end
  end.

Fixpoint intersperse_all (new s : string) : string :=
  match s with
  | EmptyString => EmptyString
  | String c r => String c (new ++ intersperse_all new r)
  end.

Definition replace (old new s : string) : string :=
  match old with
  | EmptyString => new ++ intersperse_all new s
  | _ => replace_from old new 0 s
  end.

(** [sep.join(l)] *)
Fixpoint join (sep : string) (l : list string) : string :=
  match l with
  | [] => EmptyString
  | [x] => x
  | x :: r => x ++ sep ++ join sep r
  end.

(** [s.split()]: the maximal runs of non-whitespace characters. *)
Fixpoint split_from (s : string) (word : string) : list string :=
  match s with
  | EmptyString => if nonempty word then [word] else []
  | String c r =>
      if isspace c
      then (if nonempty word then word :: split_from r EmptyString
            else split_from r EmptyString)
      else split_from r (word ++ String c EmptyString)
  end.

Definition split (s : string) : list string := split_from s EmptyString.

(** [str(n)] for a non-negative integer *)
Definition str_of_nat (n : nat) : string := DecimalString.NilZero.string_of_uint (Nat.to_uint n).

(** [str(z)] for an integer *)
Definition str_of_Z (z : Z) : string := DecimalString.NilZero.string_of_int (Z.to_int z).

(** [s[:n]]: the first [n] characters, all of [s] when it is shorter. *)
Fixpoint take (n : N) (s : string) : string :=
  match s with
  | EmptyString => EmptyString
  | String c r => if (n =? 0)%N then EmptyString else String c (take (N.pred n) r)
  end.

(** Number of characters, [len(s)], as a binary number. *)
Definition len (s : string) : N := N.of_nat (String.length s).

(** Occurrence of a character *)
Fixpoint mem (c : ascii) (s : string) : bool :=
  match s with
  | EmptyString => false
  | String d r => Ascii.eqb c d || mem c r
  end.


End PyStr.

(* ================================================================= *)
(** ** Python dictionaries and JSON values *)

Definition dict (V : Type) : Type := list (string * V).

Fixpoint dict_get {V : Type} (k : string) (d : dict V) : option V :=
  match d with
  | [] => None
  | (k', v) :: r => if (k' =? k)%string then Some v else dict_get k r
  end.

(** [d[k] = v] *)
Fixpoint dict_set {V : Type} (k : string) (v : V) (d : dict V) : dict V :=
  match d with
  | [] => [(k, v)]
  | (k', v') :: r =>
      if (k' =? k)%string then (k', v) :: r else (k', v') :: dict_set k v r
  end.

(** A dictionary display [{k1: v1, k2: v2, ...}] *)
Definition dict_of_list {V : Type} (kvs : list (string * V)) : dict V :=
  fold_left (fun d kv => dict_set (fst kv) (snd kv) d) kvs [].

(** JSON data as Python holds it.  Numbers are the integers; no claim below
    depends on a number. *)
Inductive json : Type :=
| JNull
| JBool (b : bool)
| JNum (z : Z)
| JStr (s : string)
| JArr (l : list json)
| JObj (o : dict json).

(** Truth value: [if x:] *)
Definition truthy (j : json) : bool :=
  match j with
  | JNull => false
  | JBool b => b
  | JNum z => negb (z =? 0)%Z
  | JStr s => PyStr.nonempty s
  | JArr l => match l with [] => false | _ => true end
  | JObj o => match o with [] => false | _ => true end
  end.


(* ================================================================= *)
(** ** Exceptions, events and computations *)

(** The exceptions a handler [except Exception] catches.  [RetryError] is
    what the retry decorator raises once it stops; it carries the exception
    of the last attempt. *)
Inductive exn : Type :=
| Exception (cls msg : string)
| RetryError (last_attempt : exn).

(** [str(e)].  For a [RetryError] the library prints the last attempt as a
    future, [RetryError[<Future at 0x... state=finished raised cls>]], with
    an address that differs from run to run; the model keeps the class of
    the exception raised and leaves the rest out, so no statement below
    depends on the wording of this text. *)
Definition str_exn (e : exn) : string :=
  match e with
  | Exception _ msg => msg
  | RetryError (Exception cls _) => "RetryError[raised " ++ cls ++ "]"
  | RetryError (RetryError _) => "RetryError[raised RetryError]"
  end.

(** What the interpreter raises when calls nest deeper than it allows. *)
Definition RecursionError : exn :=
  Exception "RecursionError" "maximum recursion depth exceeded".

Inductive outcome (A : Type) : Type :=
| Ok (a : A)
| Raise (e : exn).
Arguments Ok {A} a.
Arguments Raise {A} e.

(** The text of the prompt is fixed apart from four interpolated values;
    a prompt is modelled by these four. *)
Record prompt : Type := mk_prompt {
  p_ticker : string;            (* {ticker} *)
  p_main_ratios : dict string;  (* {main_ratios} *)
  p_ratios : json;              (* {ratios} *)
  p_snippets : string           (* {all_transcripts_text[:165000]} *)
}.

Inductive event : Type :=
| HttpGet (url : string) (headers : dict string) (timeout : Z)
    (* requests.get(url, headers=headers, timeout=timeout) *)
| ActorCall (actor : string) (run_input : dict json)
    (* apify_client.actor(actor).call(run_input=run_input) *)
| DatasetIterate (dataset_id : json)
    (* apify_client.dataset(id).iterate_items(), up to its first item *)
| PdfOpen (content : list Byte.byte)
    (* PdfReader(f); len(reader.pages) *)
| ExtractText (i : nat)
    (* reader.pages[i].extract_text() *)
| GenerateContent (attempt : nat) (model : string) (contents : prompt)
    (* client.models.generate_content(model=..., contents=..., config=config) *)
| Sleep (wait_min wait_max : Z) (attempt : nat)
    (* the retry decorator sleeping what wait_random_exponential(min, max)
       draws after the given attempt *)
| StatusWrite (s : string)
| StatusUpdate (label state : string)
| StWarning (s : string)
| StError (s : string)
| StDivider
| StMarkdown (s : string)
| StStop.

Definition trace : Type := list event.

(** A computation: what it returns or raises, and the events it produced. *)
Definition M (A : Type) : Type := outcome A * trace.

Definition ret {A : Type} (a : A) : M A := (Ok a, []).

Definition raise {A : Type} (e : exn) : M A := (Raise e, []).

Definition bind {A B : Type} (m : M A) (f : A -> M B) : M B :=
  match m with
  | (Ok a, t) => let (r, t') := f a in (r, (t ++ t')%list)
  | (Raise e, t) => (Raise e, t)
  end.

(** [try: m  except Exception as e: h e] *)
Definition try_except {A : Type} (m : M A) (h : exn -> M A) : M A :=
  match m with
  | (Ok a, t) => (Ok a, t)
  | (Raise e, t) => let (r, t') := h e in (r, (t ++ t')%list)
  end.

(** An outside call: log the event, then return or raise as the world says. *)
Definition call {A : Type} (ev : event) (r : outcome A) : M A := (r, [ev]).

Definition emit (ev : event) : M unit := (Ok tt, [ev]).

Definition result {A : Type} (m : M A) : outcome A := fst m.
Definition events {A : Type} (m : M A) : trace := snd m.

Declare Scope py_scope.
Delimit Scope py_scope with py.
Notation "x <- m ;; k" := (bind m (fun x => k))
  (at level 61, m at next level, right associativity) : py_scope.
Notation "m ;;; k" := (bind m (fun _ => k))
  (at level 61, right associativity) : py_scope.
Open Scope py_scope.

(* ================================================================= *)
(** ** The parsed page: BeautifulSoup with the html.parser tree builder *)

Module Bs4.

(** An element tree with string leaves.  [attrs] is the attribute dictionary
    of the element.  A comment is a string too, and so is the text inside a
    script, style, template or ruby-text element; text extraction passes
    over both. *)
Inductive node : Type :=
| NavigableString (s : string)
| Comment (s : string)
| ContainerString (s : string)
| Tag (name : string) (attrs : dict string) (contents : list node).

(** Markup as the tokenizer hands it to the tree builder: start tags, end
    tags, runs of character data and comments (names in lower case,
    character references decoded). *)
Inductive token : Type :=
| TStart (name : string) (attrs : list (string * string))
| TEnd (name : string)
| TData (s : string)
| TComment (s : string).

Definition markup : Type := list token.

(** Elements that never have contents; the builder closes them at once. *)
Definition empty_element_tags : list string :=
  ["area"; "base"; "br"; "col"; "embed"; "hr"; "img"; "input"; "keygen";
   "link"; "menuitem"; "meta"; "param"; "source"; "track"; "wbr";
   "basefont"; "bgsound"; "command"; "frame"; "image"; "isindex"; "nextid";
   "spacer"].

Definition is_empty_element (name : string) : bool :=
  existsb (String.eqb name) empty_element_tags.

(** An open element: its name and attributes, and the nodes that precede it
    in its parent, last first. *)
Record frame : Type := mk_frame {
  f_name : string;
  f_attrs : dict string;
  f_before : list node
}.

Definition close_frame (f : frame) (cur : list node) : list node :=
  Tag (f_name f) (f_attrs f) (rev cur) :: f_before f.

(** Close open elements up to and including the innermost one called
    [name]. *)
Fixpoint pop_to_tag (name : string) (stack : list frame) (cur : list node)
  : list frame * list node :=
  match stack with
  | [] => ([], cur)
  | f :: st =>
      if (f_name f =? name)%string then (st, close_frame f cur)
      else pop_to_tag name st (close_frame f cur)
  end.

Definition close_all (stack : list frame) (cur : list node) : list node :=
  fold_left (fun c f => close_frame f c) stack cur.

Definition is_open (name : string) (stack : list frame) : bool :=
  existsb (fun f => (f_name f =? name)%string) stack.

(** The elements whose text is kept in a string class of its own. *)
Definition string_containers : list string := ["rt"; "rp"; "style"; "script"; "template"].

Definition in_string_container (stack : list frame) : bool :=
  existsb (fun f => existsb (String.eqb (f_name f)) string_containers) stack.

(** Character data waits until the next tag, comment or the end of the
    input makes a string of it, of the class that the open elements ask
    for.  (A string of ASCII whitespace only, which the builder shortens to
    one space or line feed, is kept whole: it is no "Transcript", and text
    extraction strips it away.) *)
Definition end_data (stack : list frame) (data : option string) (cur : list node)
  : list node :=
  match data with
  | Some s =>
      (if in_string_container stack then ContainerString s else NavigableString s) :: cur
  | None => cur
  end.

(** [list.remove]: without the first occurrence *)
Fixpoint remove_first (n : string) (l : list string) : list string :=
  match l with
  | [] => []
  | m :: r => if (m =? n)%string then r else m :: remove_first n r
  end.

(** The tree builder.  [cur] holds the nodes of the innermost open element,
    last first; [data] is the character data not yet made a string;
    [closed] lists the empty elements closed by their start tag, whose end
    tag, should one follow, is passed over without ending the character
    data.  Any other end tag whose element is not open is dropped; elements
    still open at the end of the input are closed there. *)
Fixpoint feed (ts : markup) (closed : list string) (data : option string)
    (stack : list frame) (cur : list node) : list node :=
  match ts with
  | [] => rev (close_all stack (end_data stack data cur))
  | TData s :: r =>
      feed r closed (Some (match data with Some d => d ++ s | None => s end)) stack cur
  | TComment s :: r =>
      feed r closed None stack (Comment s :: end_data stack data cur)
  | TStart n a :: r =>
      if is_empty_element n
      then feed r (closed ++ [n])%list None stack
                (Tag n (dict_of_list a) [] :: end_data stack data cur)
      else feed r closed None (mk_frame n (dict_of_list a) (end_data stack data cur) :: stack) []
  | TEnd n :: r =>
      if existsb (String.eqb n) closed
      then feed r (remove_first n closed) data stack cur
      else if is_open n stack
      then let (st, c) := pop_to_tag n stack (end_data stack data cur) in feed r closed None st c
      else feed r closed None stack (end_data stack data cur)
  end.

(** [BeautifulSoup(html_content, 'html.parser')]: the document object is an
    element of its own. *)
Definition BeautifulSoup (html_content : markup) : node :=
  Tag "[document]" [] (feed html_content [] None [] []).



(** All nodes below [n], in document order. *)
Fixpoint descendants (n : node) : list node :=
  match n with
  | NavigableString _ => []
  | Comment _ => []
  | ContainerString _ => []
  | Tag _ _ cs => flat_map (fun c => c :: descendants c) cs
  end.

(** [n.find_all(...)] and [n.find(...)] for a filter [p]. *)
Definition find_all (p : node -> bool) (n : node) : list node :=
  filter p (descendants n).

Definition find (p : node -> bool) (n : node) : option node :=
  hd_error (find_all p n).

Definition has_name (nm : string) (n : node) : bool :=
  match n with
  | Tag m _ _ => (m =? nm)%string
  | _ => false
  end.

Definition get_attr (k : string) (n : node) : option string :=
  match n with
  | Tag _ a _ => dict_get k a
  | _ => None
  end.

(** [class_=c]: [c] is one of the classes of the element. *)
Definition has_class (c : string) (n : node) : bool :=
  match get_attr "class" n with
  | Some v => existsb (String.eqb c) (PyStr.split v)
  | None => false
  end.

(** [id=i] *)
Definition has_id (i : string) (n : node) : bool :=
  match get_attr "id" n with
  | Some v => (v =? i)%string
  | None => false
  end.

(** [n.string]: the text of a node that holds a single string, directly or
    through a chain of only children. *)
Fixpoint node_string (n : node) : option string :=
  match n with
  | NavigableString s => Some s
  | Comment s => Some s
  | ContainerString s => Some s
  | Tag _ _ [c] => node_string c
  | Tag _ _ _ => None
  end.

(** The nested calls that evaluating [n.string] makes: one for every element
    of the chain of only children. *)
Fixpoint string_depth (n : node) : nat :=
  match n with
  | NavigableString _ => 0
  | Comment _ => 0
  | ContainerString _ => 0
  | Tag _ _ [c] => S (string_depth c)
  | Tag _ _ _ => 1
  end.

(** [string=s] *)
Definition has_string (s : string) (n : node) : bool :=
  match node_string n with
  | Some t => (t =? s)%string
  | None => false
  end.

(** The strings below [n] that text extraction takes, in document order. *)
Fixpoint strings (n : node) : list string :=
  match n with
  | NavigableString s => [s]
  | Comment _ => []
  | ContainerString _ => []
  | Tag _ _ cs => flat_map strings cs
  end.

(** [n.get_text(sep, strip=True)] *)
Definition get_text (sep : string) (n : node) : string :=
  PyStr.join sep (filter PyStr.nonempty (map PyStr.strip (strings n))).

End Bs4.

Import Bs4.

(* ================================================================= *)
(** ** The outside world *)

(** What [requests.get] returns. *)
Record response : Type := mk_response {
  status_code : Z;
  reason : string;
  text : markup;                 (* response.text, tokenized *)
  content : list Byte.byte       (* response.content *)
}.

(** The items of a dataset as [iterate_items()] yields them, one at a time;
    fetching the next one may raise. *)
Inductive items : Type :=
| ItemsEnd
| ItemsCons (item : dict json) (rest : items)
| ItemsRaise (e : exn).

Record World : Type := mk_world {
  requests_get : string -> dict string -> Z -> outcome response;
  actor_call : string -> dict json -> outcome json;
  iterate_items : json -> items;
  (* the pages of the document: what extract_text() returns or raises on each *)
  PdfReader : list Byte.byte -> outcome (list (outcome string));
  (* the generation service may answer each attempt differently *)
  generate_content : nat -> string -> prompt -> outcome string;
  (* the nested calls the interpreter still allows when a page is searched:
     its recursion limit less the calls in progress *)
  recursion_room : nat
}.

(** [response.raise_for_status()] *)
Definition raise_for_status (url : string) (r : response) : outcome unit :=
  if ((400 <=? status_code r) && (status_code r <? 500))%Z then
    Raise (Exception "HTTPError"
             (PyStr.str_of_Z (status_code r) ++ " Client Error: " ++ reason r
              ++ " for url: " ++ url))
  else if ((500 <=? status_code r) && (status_code r <? 600))%Z then
    Raise (Exception "HTTPError"
             (PyStr.str_of_Z (status_code r) ++ " Server Error: " ++ reason r
              ++ " for url: " ++ url))
  else Ok tt.

(** [j[k]] *)
Definition getitem (j : json) (k : string) : outcome json :=
  match j with
  | JObj d =>
      match dict_get k d with
      | Some v => Ok v
      | None => Raise (Exception "KeyError" ("'" ++ k ++ "'"))
      end
  | JNull => Raise (Exception "TypeError" "'NoneType' object is not subscriptable")
  | JBool _ => Raise (Exception "TypeError" "'bool' object is not subscriptable")
  | JNum _ => Raise (Exception "TypeError" "'int' object is not subscriptable")
  | JStr _ => Raise (Exception "TypeError" "string indices must be integers, not 'str'")
  | JArr _ => Raise (Exception "TypeError" "list indices must be integers or slices, not str")
  end.

Definition lift {A : Type} (r : outcome A) : M A := (r, []).


(** The line feed, ["\n"] *)
Definition nl : string := String (ascii_of_nat 10) EmptyString.

(* ================================================================= *)
(** ** 2. Scraping logic *)

Definition is_concall_item (n : node) : bool :=
  has_name "li" n && has_class "flex-wrap-420" n.

Definition is_transcript_anchor (n : node) : bool :=
  has_name "a" n && has_class "concall-link" n && has_string "Transcript" n.

(** Line 51: [link if link.startswith('http') else f"https://www.screener.in{link}"] *)
Definition full_link (link : string) : string :=
  if PyStr.startswith "http" link then link
  else "https://www.screener.in" ++ link.

(** Lines 38-54: the links the function returns when its searches return. *)
Definition extract_transcript_links (html_content : markup) : list string :=
  let soup := BeautifulSoup html_content in
  let list_items := find_all is_concall_item soup in
  fold_left
    (fun transcript_links li =>
       match find is_transcript_anchor li with
       | Some transcript_anchor =>
           match get_attr "href" transcript_anchor with
           | Some link => (transcript_links ++ [full_link link])%list
           | None => transcript_links
           end
       | None => transcript_links
       end)
    list_items [].

(** [n.string] as the interpreter evaluates it: a chain of only children
    longer than the calls still allowed ends in a [RecursionError]. *)
Definition string_of (room : nat) (n : node) : outcome (option string) :=
  if (room <? string_depth n)%nat then Raise RecursionError else Ok (node_string n).

(** Line 47, [li.find('a', class_='concall-link', string='Transcript')], over
    the nodes below [li] in document order: [.string] is evaluated for the
    elements that match in name and class, up to the first one that matches
    in its string too. *)
Fixpoint find_transcript_anchor (room : nat) (below : list node) : outcome (option node) :=
  match below with
  | [] => Ok None
  | n :: rest =>
      if has_name "a" n && has_class "concall-link" n then
        match string_of room n with
        | Ok s =>
            if match s with Some t => (t =? "Transcript")%string | None => false end
            then Ok (Some n)
            else find_transcript_anchor room rest
        | Raise e => Raise e
        end
      else find_transcript_anchor room rest
  end.

(** Lines 45-52, the loop over [list_items] *)
Fixpoint for_list_items (room : nat) (list_items : list node) (transcript_links : list string)
  : outcome (list string) :=
  match list_items with
  | [] => Ok transcript_links
  | li :: rest =>
      match find_transcript_anchor room (descendants li) with
      | Ok (Some transcript_anchor) =>
          match get_attr "href" transcript_anchor with
          | Some link => for_list_items room rest (transcript_links ++ [full_link link])%list
          | None => for_list_items room rest transcript_links
          end
      | Ok None => for_list_items room rest transcript_links
      | Raise e => Raise e
      end
  end.

(** Lines 38-54 as a call: the function has no handler of its own, so an
    exception of a search leaves it.  When the call returns, it returns
    [extract_transcript_links html_content]. *)
Definition extract_transcript_links_call (room : nat) (html_content : markup)
  : outcome (list string) :=
  let soup := BeautifulSoup html_content in
  let list_items := find_all is_concall_item soup in
  for_list_items room list_items [].

Definition screener_actor : string := "shashwattrivedi/screener-in".

Definition agent_short : string :=
  "Mozilla/5.0 (Windows NT 10.0; Win64; x64) Chrome/91.0.4472.124 Safari/537.36".

Definition agent_long : string :=
  "Mozilla/5.0 (Windows NT 10.0; Win64; x64) AppleWebKit/537.36 (KHTML, like Gecko) Chrome/91.0.4472.124 Safari/537.36".

(** Lines 68-71: the loop body runs for the first item only. *)
Definition first_item_ratios (its : items) : outcome json :=
  match its with
  | ItemsEnd => Ok (JObj [])
  | ItemsCons item _ =>
      Ok (match dict_get "ratios" item with
          | Some r => r
          | None => JObj item
          end)
  | ItemsRaise e => Raise e
  end.

(** Line 62 *)
Definition consolidated_url (ticker : string) : string :=
  "https://www.screener.in/company/" ++ ticker ++ "/consolidated/".

(** Line 63 *)
Definition actor_input (company_url : string) : dict json :=
  [("mode", JStr "getstockdetails"); ("url", JStr company_url)].

(** Line 74 *)
Definition page_headers : dict string := [("User-Agent", agent_short)].

(** Line 157 *)
Definition profile_url (ticker : string) : string :=
  "https://www.screener.in/company/" ++ ticker ++ "/".

(** Lines 158-160 *)
Definition profile_headers : dict string := [("User-Agent", agent_long)].

Definition msg_scraping : string := "Scraping Fundamental financial data".

Definition msg_gathering : string :=
  "Gathering Financial Ratios from trusted source which is screener.in & Concall trascript Links...".

Definition msg_analysing : string :=
  "Analysing all the data with the standard procedure given by a RA using our AI model.".

Definition msg_no_data : string := "Failed to fetch financial data.".

(** Lines 76-78: the links of the page, searched only when it was served
    with status 200. *)
Definition page_links (room : nat) (r : response) : outcome (list string) :=
  if (status_code r =? 200)%Z
  then extract_transcript_links_call room (text r)
  else Ok [].

Section Program.

Variable w : World.

(** Lines 61-80, the body of the [try] *)
Definition fetch_ratios_and_links (ticker : string) : M (json * list string) :=
  let company_url := consolidated_url ticker in
  let run_input := actor_input company_url in
  run <- call (ActorCall screener_actor run_input) (actor_call w screener_actor run_input);;
  dataset_id <- lift (getitem run "defaultDatasetId");;
  ratios <- call (DatasetIterate dataset_id) (first_item_ratios (iterate_items w dataset_id));;
  let headers := page_headers in
  response <- call (HttpGet company_url headers 10) (requests_get w company_url headers 10);;
  links <- lift (page_links (recursion_room w) response);;
  ret (ratios, links).

(** Lines 56-83.  [None] is [JNull] for the ratios and [None] for the links. *)
Definition get_financial_data (ticker : string) : M (json * option (list string)) :=
  try_except
    (rl <- fetch_ratios_and_links ticker;;
     ret (fst rl, Some (snd rl)))
    (fun e =>
       emit (StError ("Data Acquisition Error: " ++ str_exn e));;;
       ret (JNull, None)).

(* ================================================================= *)
(** ** 3. PDF processing *)

Definition page_marker (i : nat) : string :=
  nl ++ "--- PAGE " ++ PyStr.str_of_nat (i + 1) ++ " ---" ++ nl.

(** Lines 102-105: the loop over [range(min(10, num_pages))], [text] being
    the accumulator. *)
Fixpoint for_pages (pages : list (outcome string)) (range : list nat) (text : string) : M string :=
  match range with
  | [] => ret text
  | i :: rest =>
      page_text <- call (ExtractText i)
                        (nth i pages (Raise (Exception "IndexError" "sequence index out of range")));;
      for_pages pages rest
        (if PyStr.nonempty page_text then text ++ page_marker i ++ page_text else text)
  end.

Definition no_text_sentinel : string := "[Scanned PDF/No Text]".

(** Lines 90-93 *)
Definition document_headers : dict string :=
  [("User-Agent", agent_long); ("Accept", "application/pdf")].

(** Lines 90-107, the body of the [try] *)
Definition download_and_extract (url : string) : M string :=
  let headers := document_headers in
  response <- call (HttpGet url headers 15) (requests_get w url headers 15);;
  lift (raise_for_status url response);;;
  pages <- call (PdfOpen (content response)) (PdfReader w (content response));;
  let num_pages := List.length pages in
  text <- for_pages pages (seq 0 (Nat.min 10 num_pages)) "";;
  ret (if PyStr.nonempty (PyStr.strip text) then text else no_text_sentinel).

(** Lines 87-110 *)
Definition read_transcript (url : string) : M string :=
  try_except (download_and_extract url)
    (fun e => ret ("Could not read PDF: " ++ str_exn e)).

(* ================================================================= *)
(** ** 4. AI analysis *)

(** [wait_exponential(multiplier=1, min=wait_min, max=wait_max, exp_base=2)]
    after the given attempt: [2 ** (attempt - 1)] seconds, kept between
    [wait_min] and [wait_max]. *)
Definition wait_exponential (wait_min wait_max : Z) (attempt : nat) : Z :=
  Z.max (Z.max 0 wait_min) (Z.min (1 * 2 ^ Z.of_nat (attempt - 1)) wait_max).

(** [wait_random_exponential(min=wait_min, max=wait_max)] after the given
    attempt: [random.uniform(wait_min, high)] with [high] the exponential
    wait, that is [wait_min + (high - wait_min) * u] for the draw [u] of
    [random.random()], which lies between 0 and 1.  Seconds are rationals. *)
Definition wait_random_exponential (wait_min wait_max : Z) (attempt : nat) (u : Q) : Q :=
  (inject_Z wait_min
   + (inject_Z (wait_exponential wait_min wait_max attempt) - inject_Z wait_min) * u)%Q.

(** The seconds a [Sleep] event sleeps when the draw is [u]. *)
Definition seconds_slept (e : event) (u : Q) : option Q :=
  match e with
  | Sleep wait_min wait_max attempt =>
      Some (wait_random_exponential wait_min wait_max attempt u)
  | _ => None
  end.

(** The retry decorator: call [f]; when it raises, either stop with a
    [RetryError] or wait and call it again.  [remaining] is the number of
    attempts still allowed after the current one. *)
Fixpoint retrying {A : Type} (wait_min wait_max : Z) (remaining attempt : nat)
    (f : nat -> M A) : M A :=
  try_except (f attempt)
    (fun e =>
       match remaining with
       | O => raise (RetryError e)
       | S r =>
           emit (Sleep wait_min wait_max attempt);;;
           retrying wait_min wait_max r (S attempt) f
       end).

(** [@retry(retry=retry_if_exception_type(Exception),
            wait=wait_random_exponential(min=wait_min, max=wait_max),
            stop=stop_after_attempt(stop))] *)
Definition retry {A : Type} (wait_min wait_max : Z) (stop : nat) (f : nat -> M A) : M A :=
  retrying wait_min wait_max (stop - 1) 1 f.

Definition gemini_model : string := "gemini-2.5-flash".

(** Lines 114-125.  The result is the text of the response. *)
Definition generate_analysis (p : prompt) : M string :=
  retry 10 60 3
    (fun attempt =>
       call (GenerateContent attempt gemini_model p)
            (generate_content w attempt gemini_model p)).

(* ================================================================= *)
(** ** Local ratios *)

Definition is_top_ratios (n : node) : bool :=
  has_name "ul" n && has_id "top-ratios" n.

Definition is_ratio_item (n : node) : bool :=
  has_name "li" n && has_class "flex" n.

Definition is_name_span (n : node) : bool :=
  has_name "span" n && has_class "name" n.

Definition is_value_span (n : node) : bool :=
  has_name "span" n && has_class "value" n.

(** Line 188 *)
Definition ratio_value (value_tag : node) : string :=
  PyStr.replace "  " " " (PyStr.replace nl "" (get_text " " value_tag)).

(** Lines 176-191 *)
Definition ratios_of_container (ratios_container : node) : dict string :=
  fold_left
    (fun ratios_data li =>
       match find is_name_span li, find is_value_span li with
       | Some name_tag, Some value_tag =>
           let name := get_text "" name_tag in
           let value := ratio_value value_tag in
           dict_set name value ratios_data
       | _, _ => ratios_data
       end)
    (find_all is_ratio_item ratios_container) [].

(** Lines 168-191: the page once it has been fetched *)
Definition ratios_of_page (html_content : markup) : dict string :=
  let soup := BeautifulSoup html_content in
  match find is_top_ratios soup with
  | None => []
  | Some ratios_container => ratios_of_container ratios_container
  end.

(** Lines 153-195.  The diagnostic [print] calls are not logged. *)
Definition get_company_ratios (ticker : string) : M (dict string) :=
  let url := profile_url ticker in
  let headers := profile_headers in
  try_except
    (response <- call (HttpGet url headers 10) (requests_get w url headers 10);;
     if negb (status_code response =? 200)%Z then ret []
     else ret (ratios_of_page (text response)))
    (fun e => ret []).

(* ================================================================= *)
(** ** 5. Main app interface: the "Start Deep Research" button *)

Definition transcript_separator (i : nat) : string :=
  nl ++ "--- TRANSCRIPT " ++ PyStr.str_of_nat (i + 1) ++ " SOURCE ---" ++ nl.

(** Lines 227-229: the loop over [enumerate(recent_links)] from index [i],
    [all_transcripts_text] being the accumulator. *)
Fixpoint for_links (recent_links : list string) (i total : nat)
    (all_transcripts_text : string) : M string :=
  match recent_links with
  | [] => ret all_transcripts_text
  | link :: rest =>
      emit (StatusWrite ("Downloading & Parsing Transcript " ++ PyStr.str_of_nat (i + 1)
                         ++ " of " ++ PyStr.str_of_nat total ++ "..."));;;
      t <- read_transcript link;;
      for_links rest (S i) total
        (all_transcripts_text ++ (transcript_separator i ++ t))
  end.

(** The character budget of the transcript segment, line 244 *)
Definition snippet_cap : N := 165000.

(** Lines 223-231 *)
Definition collect_transcripts (links : option (list string)) : M string :=
  match links with
  | Some (l :: ls) =>
      let recent_links := firstn 3 (l :: ls) in
      for_links recent_links 0 (List.length recent_links) ""
  | _ =>
      emit (StatusWrite "No transcripts found. Proceeding with Ratio analysis only.");;;
      ret ""
  end.

(** Lines 281-297: the generation call and what is shown of it *)
Definition synthesize (audit_prompt : prompt) : M unit :=
  try_except
    (response <- generate_analysis audit_prompt;;
     emit (StatusUpdate "Audit Complete!" "complete");;;
     emit StDivider;;;
     emit (StMarkdown response))
    (fun e => emit (StError (" Error:  " ++ str_exn e))).

(** Lines 207-297 *)
Definition start_deep_research (ticker : string) : M unit :=
  if negb (PyStr.nonempty ticker) then emit (StWarning "Please enter a ticker.")
  else
    emit (StatusWrite msg_scraping);;;
    main_ratios <- get_company_ratios ticker;;
    emit (StatusWrite msg_gathering);;;
    rl <- get_financial_data ticker;;
    let ratios := fst rl in
    let links := snd rl in
    if negb (truthy ratios) then
      emit (StError msg_no_data);;;
      emit StStop
    else
      all_transcripts_text <- collect_transcripts links;;
      emit (StatusWrite msg_analysing);;;
      let audit_prompt :=
        mk_prompt ticker main_ratios ratios (PyStr.take snippet_cap all_transcripts_text) in
      synthesize audit_prompt.

End Program.

(* ================================================================= *)
(** ** Reading a run *)

(** What [get_financial_data] hands to the handler. *)
Definition remote_ratios (w : World) (ticker : string) : json :=
  match result (get_financial_data w ticker) with
  | Ok rl => fst rl
  | Raise _ => JNull
  end.

Definition remote_links (w : World) (ticker : string) : option (list string) :=
  match result (get_financial_data w ticker) with
  | Ok rl => snd rl
  | Raise _ => None
  end.

(** The world [w] with another dataset behind the actor run. *)
Definition with_dataset (w : World) (dataset : items) : World :=
  {| requests_get := requests_get w;
     actor_call := actor_call w;
     iterate_items := fun _ => dataset;
     PdfReader := PdfReader w;
     generate_content := generate_content w;
     recursion_room := recursion_room w |}.

(** What [get_company_ratios] hands to the handler. *)
Definition local_ratios (w : World) (ticker : string) : dict string :=
  match result (get_company_ratios w ticker) with
  | Ok d => d
  | Raise _ => []
  end.

(** The handler's [all_transcripts_text] once the links are processed. *)
Definition all_transcripts_text (w : World) (ticker : string) : string :=
  match result (collect_transcripts w (remote_links w ticker)) with
  | Ok s => s
  | Raise _ => EmptyString
  end.

(** The handler's [audit_prompt]. *)
Definition audit_prompt (w : World) (ticker : string) : prompt :=
  mk_prompt ticker (local_ratios w ticker) (remote_ratios w ticker)
            (PyStr.take snippet_cap (all_transcripts_text w ticker)).

(** The events of [k] attempts of the generation call, numbered from
    [attempt], with the decorator's wait between two of them. *)
Fixpoint attempts_from (p : prompt) (attempt k : nat) : trace :=
  match k with
  | O => []
  | S O => [GenerateContent attempt gemini_model p]
  | S k' =>
      GenerateContent attempt gemini_model p :: Sleep 10 60 attempt
      :: attempts_from p (S attempt) k'
  end.

(** The text [read_transcript] returns for a link. *)
Definition transcript_text (w : World) (url : string) : string :=
  match result (read_transcript w url) with
  | Ok s => s
  | Raise _ => EmptyString
  end.

(** Downloading or parsing a transcript document. *)
Definition is_document_event (e : event) : bool :=
  match e with
  | HttpGet _ headers _ =>
      match dict_get "Accept" headers with Some _ => true | None => false end
  | PdfOpen _ => true
  | ExtractText _ => true
  | _ => false
  end.

(** A call of the generation service, or the decorator waiting for the next. *)
Definition is_generation_event (e : event) : bool :=
  match e with
  | GenerateContent _ _ _ => true
  | Sleep _ _ _ => true
  | _ => false
  end.

(** Neither a transcript document nor the generation service is touched. *)
Definition quiet (e : event) : bool :=
  negb (is_document_event e) && negb (is_generation_event e).

Definition is_attempt (e : event) : bool :=
  match e with GenerateContent _ _ _ => true | _ => false end.

Definition is_report (e : event) : bool :=
  match e with StMarkdown _ => true | _ => false end.

(** The links whose document was requested, in order. *)
Definition downloads (t : trace) : list string :=
  flat_map (fun e => match e with
                     | HttpGet url headers _ =>
                         match dict_get "Accept" headers with
                         | Some _ => [url]
                         | None => []
                         end
                     | _ => []
                     end) t.

(** The pages whose text was extracted, in order. *)
Definition pages_read (t : trace) : list nat :=
  flat_map (fun e => match e with ExtractText i => [i] | _ => [] end) t.

(* ================================================================= *)
(** ** The specification's wording, as functions *)

(** The link a concall entry contributes: none, or its transcript anchor's
    href made absolute. *)
Definition entry_links (li : node) : list string :=
  match find is_transcript_anchor li with
  | Some a =>
      match get_attr "href" a with
      | Some link => [full_link link]
      | None => []
      end
  | None => []
  end.

(** The hrefs of the transcript anchors of a page, as they stand in the
    markup: one per concall entry that has such an anchor with an href. *)
Definition collected_hrefs (html_content : markup) : list string :=
  flat_map
    (fun li =>
       match find is_transcript_anchor li with
       | Some a => match get_attr "href" a with Some link => [link] | None => [] end
       | None => []
       end)
    (find_all is_concall_item (BeautifulSoup html_content)).

(** The ratio a list entry contributes: its name and normalized value. *)
Definition entry_ratio (li : node) : option (string * string) :=
  match find is_name_span li, find is_value_span li with
  | Some name_tag, Some value_tag => Some (get_text "" name_tag, ratio_value value_tag)
  | _, _ => None
  end.

(** Page texts, each non-empty one under a marker with its 1-based number;
    [i] is the 0-based index of the first. *)
Fixpoint labelled_pages (i : nat) (texts : list string) : string :=
  match texts with
  | [] => EmptyString
  | t :: r =>
      (if PyStr.nonempty t then page_marker i ++ t else EmptyString)
      ++ labelled_pages (S i) r
  end.

(** The labelled separator: a line of its own that names the transcript by
    its number, counted from 1. *)
Definition transcript_label (i : nat) : string :=
  nl ++ "--- TRANSCRIPT " ++ PyStr.str_of_nat (i + 1) ++ " SOURCE ---" ++ nl.

(** Document texts, each under its separator, in order. *)
Fixpoint labelled_transcripts (i : nat) (texts : list string) : string :=
  match texts with
  | [] => EmptyString
  | t :: r => (transcript_label i ++ t) ++ labelled_transcripts (S i) r
  end.

(** A string consisting of whitespace only (the empty one included). *)
Definition blank (s : string) : bool := negb (PyStr.nonempty (PyStr.strip s)).




(* ================================================================= *)
(** ** Kinds of events *)

(** What fetching the ratios and the links may do: the actor call, reading
    the dataset, a page request and showing an error. *)
Definition is_fetch_event (e : event) : bool :=
  match e with
  | ActorCall _ _ => true
  | DatasetIterate _ => true
  | StError _ => true
  | HttpGet _ headers _ =>
      match dict_get "Accept" headers with Some _ => false | None => true end
  | _ => false
  end.

(** What the transcript stage may do: a progress note, a document request,
    opening the document and extracting a page. *)
Definition is_transcript_stage_event (e : event) : bool :=
  match e with
  | StatusWrite _ => true
  | PdfOpen _ => true
  | ExtractText _ => true
  | HttpGet _ headers _ =>
      match dict_get "Accept" headers with Some _ => true | None => false end
  | _ => false
  end.

(** What the synthesis may do: attempts, waits, and showing the report or
    the error. *)
Definition is_synthesis_event (e : event) : bool :=
  match e with
  | GenerateContent _ _ _ => true
  | Sleep _ _ _ => true
  | StatusUpdate _ _ => true
  | StDivider => true
  | StMarkdown _ => true
  | StError _ => true
  | _ => false
  end.

Definition is_wait (e : event) : bool :=
  match e with Sleep _ _ _ => true | _ => false end.

Definition is_actor_call (e : event) : bool :=
  match e with ActorCall _ _ => true | _ => false end.

Definition is_pdf_open (e : event) : bool :=
  match e with PdfOpen _ => true | _ => false end.

(** Every URL requested, in order. *)
Definition requested (t : trace) : list string :=
  flat_map (fun e => match e with HttpGet url _ _ => [url] | _ => [] end) t.

(** The name and value pairs of the entries of a ratio list, in order. *)
Definition entry_pairs (ratios_container : node) : list (string * string) :=
  flat_map (fun li => match entry_ratio li with Some p => [p] | None => [] end)
           (find_all is_ratio_item ratios_container).

(** The value of the last pair named [k]. *)
Definition last_value (k : string) (pairs : list (string * string)) : option string :=
  fold_left (fun acc kv => if (fst kv =? k)%string then Some (snd kv) else acc) pairs None.

(** ** The structure of a page, read off its markup *)









(* ================================================================= *)
(** ** 1. Configuration: the keys and the clients *)

(** Lines 27-28: the two variables read from the environment, [None] when
    a variable is not set. *)
Record environ : Type := mk_environ {
  APIFY_TOKEN : option string;
  GEMINI_KEY : option string
}.

(** Truth value of what [os.environ.get] returns. *)
Definition key_given (k : option string) : bool :=
  match k with
  | Some s => PyStr.nonempty s
  | None => false
  end.

(** Line 30, [GEMINI_KEY and APIFY_TOKEN]: the globals [client] and
    [apify_client] are bound when it holds, and neither is otherwise. *)
Definition clients_bound (env : environ) : bool :=
  key_given (GEMINI_KEY env) && key_given (APIFY_TOKEN env).

Definition msg_missing_keys : string :=
  "Missing API Keys! Please set GEMINI_API_KEY and APIFY_TOKEN in your environment.".

(** What reading a global name that was never bound raises. *)
Definition NameError (name : string) : exn :=
  Exception "NameError" ("name '" ++ name ++ "' is not defined").

(** Lines 56-83 with [apify_client] unbound: line 66 raises at the name,
    inside the [try], before any call is made. *)
Definition get_financial_data_unbound (ticker : string) : M (json * option (list string)) :=
  try_except
    (raise (NameError "apify_client"))
    (fun e =>
       emit (StError ("Data Acquisition Error: " ++ str_exn e));;;
       ret (JNull, None)).

(** Lines 114-125 with [client] unbound: every attempt raises at the name. *)
Definition generate_analysis_unbound (p : prompt) : M string :=
  retry 10 60 3 (fun attempt => raise (NameError "client")).

Section Script.

Variable w : World.

(** Lines 281-297 over the generation function *)
Definition synthesize_with (generate_analysis : prompt -> M string)
    (audit_prompt : prompt) : M unit :=
  try_except
    (response <- generate_analysis audit_prompt;;
     emit (StatusUpdate "Audit Complete!" "complete");;;
     emit StDivider;;;
     emit (StMarkdown response))
    (fun e => emit (StError (" Error:  " ++ str_exn e))).

(** Lines 207-297 over the remote fetch and the generation function *)
Definition start_deep_research_with
    (get_financial_data : string -> M (json * option (list string)))
    (generate_analysis : prompt -> M string) (ticker : string) : M unit :=
  if negb (PyStr.nonempty ticker) then emit (StWarning "Please enter a ticker.")
  else
    emit (StatusWrite msg_scraping);;;
    main_ratios <- get_company_ratios w ticker;;
    emit (StatusWrite msg_gathering);;;
    rl <- get_financial_data ticker;;
    let ratios := fst rl in
    let links := snd rl in
    if negb (truthy ratios) then
      emit (StError msg_no_data);;;
      emit StStop
    else
      all_transcripts_text <- collect_transcripts w links;;
      emit (StatusWrite msg_analysing);;;
      let audit_prompt :=
        mk_prompt ticker main_ratios ratios (PyStr.take snippet_cap all_transcripts_text) in
      synthesize_with generate_analysis audit_prompt.

(** One run of the script: lines 30-34, then the handler when the button
    was pressed (line 207).  [ticker] is the text of the input field in
    upper case (line 205); the title and the captions are not logged. *)
Definition script (env : environ) (pressed : bool) (ticker : string) : M unit :=
  if clients_bound env then
    if pressed then start_deep_research w ticker else ret tt
  else
    emit (StError msg_missing_keys);;;
    if pressed
    then start_deep_research_with get_financial_data_unbound generate_analysis_unbound ticker
    else ret tt.

End Script.

(* ================================================================= *)
(** ** Example pages and worlds *)

Module Example.

(** A page with one concall entry. *)
Definition one_concall_page : markup :=
  [TStart "li" [("class", "flex flex-gap-8 flex-wrap-420")];
   TStart "div" [("class", "ink-600")]; TData "Nov 2025"; TEnd "div";
   TStart "a" [("class", "concall-link"); ("href", "/company/X/concalls/123/")];
   TData "Transcript"; TEnd "a";
   TEnd "li"].


(** The ratio list of a profile page: the value of P/E is spread over
    nested elements and line breaks, the value of ROE holds a line break and
    a double space. *)
Definition ratios_page : markup :=
  [TStart "ul" [("id", "top-ratios")];
   TStart "li" [("class", "flex flex-space-between")];
   TStart "span" [("class", "name")]; TData (nl ++ "  P/E" ++ nl); TEnd "span";
   TStart "span" [("class", "nowrap value")];
   TData (nl ++ "  ");
   TStart "span" [("class", "number")]; TData "23.5 "; TEnd "span";
   TData nl;
   TEnd "span";
   TEnd "li";
   TStart "li" [("class", "flex flex-space-between")];
   TStart "span" [("class", "name")]; TData "ROE"; TEnd "span";
   TStart "span" [("class", "nowrap value")];
   TData ("18 " ++ nl ++ " %");
   TEnd "span";
   TEnd "li";
   TEnd "ul"].


Definition connection_error : exn :=
  Exception "ConnectionError" "Connection refused".

Definition html_response (html_content : markup) : outcome response :=
  Ok (mk_response 200 "OK" html_content []).

Definition pdf_bytes : list Byte.byte := [Byte.x25; Byte.x50; Byte.x44; Byte.x46].

Definition pdf_response : outcome response :=
  Ok (mk_response 200 "OK" [] pdf_bytes).

Definition not_found : outcome response :=
  Ok (mk_response 404 "Not Found" [] []).

(** A world for ticker X: what the profile page, the consolidated page and
    every document request answer, what the actor run and its dataset hold,
    what the PDF reader finds and what the generation service answers. *)
Definition world (profile consolidated document : outcome response)
    (run : outcome json) (dataset : items) (pdf : outcome (list (outcome string)))
    (generation : nat -> outcome string) : World :=
  {| requests_get := fun url headers timeout =>
       match dict_get "Accept" headers with
       | Some _ => document
       | None =>
           if (url =? "https://www.screener.in/company/X/consolidated/")%string
           then consolidated else profile
       end;
     actor_call := fun _ _ => run;
     iterate_items := fun _ => dataset;
     PdfReader := fun _ => pdf;
     generate_content := fun attempt _ _ => generation attempt;
     recursion_room := 900 |}.

Definition run_ok : outcome json :=
  Ok (JObj [("id", JStr "r1"); ("defaultDatasetId", JStr "d1")]).

Definition first_item : dict json :=
  [("name", JStr "X Ltd");
   ("ratios", JObj [("Market Cap", JStr "1,000 Cr."); ("Stock P/E", JStr "23.5")])].

Definition second_item : dict json :=
  [("ratios", JObj [("Stock P/E", JStr "99")])].

Definition two_items : items :=
  ItemsCons first_item (ItemsCons second_item ItemsEnd).

Definition service_down (attempt : nat) : outcome string :=
  Raise (Exception "ServerError" ("503 UNAVAILABLE, attempt " ++ PyStr.str_of_nat attempt)).

Definition service_up (attempt : nat) : outcome string := Ok "# Report".

(** Fifteen pages: the first ten and the last hold text, pages 11 to 14
    cannot be extracted. *)
Definition fifteen_pages : list (outcome string) :=
  app (map (fun i => Ok ("text of page " ++ PyStr.str_of_nat i)) (seq 1 10))
      (app (repeat (Raise (Exception "PdfReadError" "broken page")) 4)
           [Ok "text of page 15"]).

(** Three pages without a text layer. *)
Definition scanned_pages : list (outcome string) := [Ok ""; Ok ""; Ok ""].

(** A page whose text layer is a single space. *)
Definition space_page : list (outcome string) := [Ok " "].

(** The remote dataset is empty. *)
Definition w_no_ratios : World :=
  world (html_response ratios_page) (html_response one_concall_page) pdf_response
        run_ok ItemsEnd (Ok fifteen_pages) service_up.

(** Ratios and one transcript are there, the generation service is down. *)
Definition w_service_down : World :=
  world (html_response ratios_page) (html_response one_concall_page) pdf_response
        run_ok two_items (Ok fifteen_pages) service_down.

(** Everything answers. *)
Definition w_all_up : World :=
  world (html_response ratios_page) (html_response one_concall_page) pdf_response
        run_ok two_items (Ok fifteen_pages) service_up.

(** The remote ratios arrive, then the consolidated page cannot be fetched. *)
Definition w_page_down : World :=
  world (html_response ratios_page) (Raise connection_error) pdf_response
        run_ok two_items (Ok fifteen_pages) service_up.

(** The transcript document is a scan. *)
Definition w_scanned : World :=
  world (html_response ratios_page) (html_response one_concall_page) pdf_response
        run_ok two_items (Ok scanned_pages) service_up.

(** The transcript document cannot be downloaded. *)
Definition w_document_missing : World :=
  world (html_response ratios_page) (html_response one_concall_page) not_found
        run_ok two_items (Ok fifteen_pages) service_up.

(** The transcript document has one page, whose text is a single space. *)
Definition w_space_page : World :=
  world (html_response ratios_page) (html_response one_concall_page) pdf_response
        run_ok two_items (Ok space_page) service_up.

(** The page with the links holds no concall entry. *)
Definition w_no_links : World :=
  world (html_response ratios_page) (html_response ratios_page) pdf_response
        run_ok two_items (Ok fifteen_pages) service_up.





(** The profile page cannot be fetched. *)
Definition w_profile_down : World :=
  world (Raise connection_error) (html_response one_concall_page) pdf_response
        run_ok two_items (Ok fifteen_pages) service_up.

(** The page with the links answers 403. *)
Definition forbidden : outcome response :=
  Ok (mk_response 403 "Forbidden" one_concall_page []).

Definition w_links_forbidden : World :=
  world (html_response ratios_page) forbidden pdf_response
        run_ok two_items (Ok fifteen_pages) service_up.

(** The first item of the dataset has a name and an empty "ratios" field. *)
Definition item_without_ratios : dict json :=
  [("name", JStr "X Ltd"); ("ratios", JObj [])].

Definition w_empty_ratios_field : World :=
  world (html_response ratios_page) (html_response one_concall_page) pdf_response
        run_ok (ItemsCons item_without_ratios (ItemsCons second_item ItemsEnd))
        (Ok fifteen_pages) service_up.

(** The actor call fails. *)
Definition actor_error : exn := Exception "ApifyApiError" "Actor run failed".

Definition w_actor_down : World :=
  world (html_response ratios_page) (html_response one_concall_page) pdf_response
        (Raise actor_error) two_items (Ok fifteen_pages) service_up.

(** The actor run carries no dataset id. *)
Definition w_no_dataset_id : World :=
  world (html_response ratios_page) (html_response one_concall_page) pdf_response
        (Ok (JObj [("id", JStr "r1")])) two_items (Ok fifteen_pages) service_up.

(** The same document cut after its tenth page. *)
Definition w_ten_pages : World :=
  world (html_response ratios_page) (html_response one_concall_page) pdf_response
        run_ok two_items (Ok (firstn 10 fifteen_pages)) service_up.

(** A ratio list that names P/E twice. *)
Definition repeated_ratio_page : markup :=
  [TStart "ul" [("id", "top-ratios")];
   TStart "li" [("class", "flex")];
   TStart "span" [("class", "name")]; TData "P/E"; TEnd "span";
   TStart "span" [("class", "value")]; TData "23.5"; TEnd "span";
   TEnd "li";
   TStart "li" [("class", "flex")];
   TStart "span" [("class", "name")]; TData "ROE"; TEnd "span";
   TStart "span" [("class", "value")]; TData "18 %"; TEnd "span";
   TEnd "li";
   TStart "li" [("class", "flex")];
   TStart "span" [("class", "name")]; TData "P/E"; TEnd "span";
   TStart "span" [("class", "value")]; TData "25"; TEnd "span";
   TEnd "li";
   TEnd "ul"].

End Example.

(* ================================================================= *)
(** * Properties *)

(** ** Strings *)

Lemma length_app (a b : string) :
  String.length (a ++ b) = String.length a + String.length b.
Proof. induction a as [|c a IH]; simpl; [reflexivity | now rewrite IH]. Qed.

Lemma app_assoc_s (a b c : string) : (a ++ b) ++ c = a ++ (b ++ c).
Proof. induction a as [|x a IH]; simpl; [reflexivity | now rewrite IH]. Qed.

Lemma app_empty_r (a : string) : a ++ "" = a.
Proof. induction a as [|x a IH]; simpl; [reflexivity | now rewrite IH]. Qed.

Lemma take_len (n : N) (s : string) :
  PyStr.len (PyStr.take n s) = N.min n (PyStr.len s).
Proof.
  unfold PyStr.len. revert n.
  induction s as [|c s IH]; intro n; simpl.
  - lia.
  - destruct (N.eqb_spec n 0) as [->|Hn]; simpl.
    + lia.
    + specialize (IH (N.pred n)). lia.
Qed.

Lemma take_split (n : N) (s : string) : exists rest, s = PyStr.take n s ++ rest.
Proof.
  revert n. induction s as [|c s IH]; intro n; simpl.
  - now exists "".
  - destruct (n =? 0)%N.
    + now exists (String c s).
    + destruct (IH (N.pred n)) as [rest E]. exists rest. simpl. now rewrite <- E.
Qed.

Lemma take_all (n : N) (s : string) : (PyStr.len s <= n)%N -> PyStr.take n s = s.
Proof.
  unfold PyStr.len. revert n.
  induction s as [|c s IH]; intros n H; simpl in *.
  - reflexivity.
  - destruct (N.eqb_spec n 0) as [->|Hn]; [lia|].
    rewrite IH; [reflexivity | lia].
Qed.


(** A string that holds a character that is not whitespace keeps it when
    stripped. *)
Lemma lstrip_keeps (c : ascii) (s : string) :
  PyStr.isspace c = false -> PyStr.mem c s = true ->
  PyStr.mem c (PyStr.lstrip s) = true.
Proof.
  intros Hc. induction s as [|x s IH]; simpl; intro H; [discriminate|].
  destruct (PyStr.isspace x) eqn:Hx.
  - destruct (Ascii.eqb_spec c x) as [->|_]; [congruence|]. now apply IH.
  - exact H.
Qed.

Lemma rstrip_keeps (c : ascii) (s : string) :
  PyStr.isspace c = false -> PyStr.mem c s = true ->
  PyStr.mem c (PyStr.rstrip s) = true.
Proof.
  intros Hc. induction s as [|x s IH]; simpl; intro H; [discriminate|].
  destruct (Ascii.eqb_spec c x) as [->|Hne].
  - destruct (PyStr.rstrip s); [rewrite Hc|]; simpl; now rewrite Ascii.eqb_refl.
  - simpl in H. specialize (IH H).
    destruct (PyStr.rstrip s); [discriminate|].
    simpl in *. rewrite IH. now rewrite orb_true_r.
Qed.

Lemma strip_keeps (c : ascii) (s : string) :
  PyStr.isspace c = false -> PyStr.mem c s = true ->
  PyStr.nonempty (PyStr.strip s) = true.
Proof.
  intros Hc H. unfold PyStr.strip.
  pose proof (rstrip_keeps c _ Hc (lstrip_keeps c s Hc H)) as K.
  destruct (PyStr.rstrip (PyStr.lstrip s)); [discriminate | reflexivity].
Qed.

(** ** The transcript link extractor *)

Lemma fold_left_app_flat_map {A B : Type} (f : B -> list A) (l : list B) (acc : list A) :
  fold_left (fun acc x => (acc ++ f x)%list) l acc = (acc ++ flat_map f l)%list.
Proof.
  revert acc. induction l as [|x l IH]; intro acc; simpl.
  - now rewrite app_nil_r.
  - rewrite IH. now rewrite <- app_assoc.
Qed.

Lemma fold_left_ext {A B : Type} (f g : A -> B -> A) (l : list B) (acc : A) :
  (forall a x, f a x = g a x) -> fold_left f l acc = fold_left g l acc.
Proof.
  intro H. revert acc. induction l as [|x l IH]; intro acc; simpl; [reflexivity|].
  now rewrite H, IH.
Qed.

(** The loop of [extract_transcript_links] collects, entry by entry, the
    links of [entry_links]. *)
Lemma extract_transcript_links_spec (html_content : markup) :
  extract_transcript_links html_content =
  flat_map entry_links (find_all is_concall_item (BeautifulSoup html_content)).
Proof.
  unfold extract_transcript_links.
  rewrite <- (app_nil_l (flat_map _ _)).
  rewrite <- fold_left_app_flat_map.
  apply fold_left_ext. intros acc li. unfold entry_links.
  destruct (find is_transcript_anchor li) as [a|]; [|now rewrite app_nil_r].
  destruct (get_attr "href" a); [reflexivity | now rewrite app_nil_r].
Qed.

Lemma full_link_absolute (link : string) :
  PyStr.startswith "http" (full_link link) = true.
Proof.
  unfold full_link. destruct (PyStr.startswith "http" link) eqn:E; [exact E|].
  reflexivity.
Qed.

Lemma map_flat_map {A B C : Type} (f : B -> C) (g : A -> list B) (l : list A) :
  map f (flat_map g l) = flat_map (fun x => map f (g x)) l.
Proof.
  induction l as [|x l IH]; simpl; [reflexivity|].
  now rewrite map_app, IH.
Qed.

Lemma extract_transcript_links_hrefs (html_content : markup) :
  extract_transcript_links html_content = map full_link (collected_hrefs html_content).
Proof.
  rewrite extract_transcript_links_spec. unfold collected_hrefs.
  rewrite map_flat_map. apply flat_map_ext. intro li. unfold entry_links.
  destruct (find is_transcript_anchor li) as [a|]; [|reflexivity].
  now destruct (get_attr "href" a).
Qed.

(** ** The link extractor as a call *)

(** A search either returns what [find] finds or ends in a [RecursionError]. *)
Lemma find_transcript_anchor_cases (room : nat) (below : list node) :
  find_transcript_anchor room below = Ok (hd_error (filter is_transcript_anchor below))
  \/ find_transcript_anchor room below = Raise RecursionError.
Proof.
  induction below as [|n rest IH]; [now left|].
  cbn [find_transcript_anchor filter]. unfold is_transcript_anchor at 1, has_string, string_of.
  destruct (has_name "a" n && has_class "concall-link" n); cbn [andb]; [|exact IH].
  destruct (room <? string_depth n)%nat; [now right|].
  destruct (match node_string n with
            | Some t => (t =? "Transcript")%string
            | None => false
            end); [now left | exact IH].
Qed.



Lemma for_list_items_cases (room : nat) (list_items : list node) (acc : list string) :
  for_list_items room list_items acc =
    Ok (fold_left
          (fun transcript_links li =>
             match find is_transcript_anchor li with
             | Some transcript_anchor =>
                 match get_attr "href" transcript_anchor with
                 | Some link => (transcript_links ++ [full_link link])%list
                 | None => transcript_links
                 end
             | None => transcript_links
             end) list_items acc)
  \/ for_list_items room list_items acc = Raise RecursionError.
Proof.
  revert acc. induction list_items as [|li rest IH]; intro acc; [now left|].
  cbn [for_list_items fold_left].
  destruct (find_transcript_anchor_cases room (descendants li)) as [-> | ->]; [|now right].
  change (hd_error (filter is_transcript_anchor (descendants li)))
    with (find is_transcript_anchor li).
  destruct (find is_transcript_anchor li) as [a|]; [|apply IH].
  destruct (get_attr "href" a); apply IH.
Qed.

(** The call returns the links of the page or ends in a [RecursionError]. *)
Lemma extract_transcript_links_call_cases (room : nat) (html_content : markup) :
  extract_transcript_links_call room html_content = Ok (extract_transcript_links html_content)
  \/ extract_transcript_links_call room html_content = Raise RecursionError.
Proof. apply for_list_items_cases. Qed.

Lemma page_links_cases (room : nat) (r : response) :
  page_links room r =
    Ok (if (status_code r =? 200)%Z then extract_transcript_links (text r) else [])
  \/ (status_code r = 200%Z /\ page_links room r = Raise RecursionError).
Proof.
  unfold page_links. destruct (Z.eqb_spec (status_code r) 200) as [E|E]; [|now left].
  destruct (extract_transcript_links_call_cases room (text r)) as [-> | ->];
    [now left | now right].
Qed.



(** ** The local ratio extractor *)



Lemma get_company_ratios_total (w : World) (ticker : string) :
  exists d, result (get_company_ratios w ticker) = Ok d.
Proof.
  unfold get_company_ratios, call, try_except, bind, ret, result.
  destruct (requests_get w _ _ _) as [r|e]; simpl.
  - destruct (negb (status_code r =? 200)%Z); simpl; eauto.
  - eauto.
Qed.


(** ** What the tree builder makes of the markup *)

Lemma filter_none {A : Type} (p : A -> bool) (l : list A) :
  Forall (fun x => p x = false) l -> filter p l = [].
Proof.
  induction 1 as [|x l Hx _ IH]; [reflexivity|]. cbn [filter]. now rewrite Hx.
Qed.



Section Builder.

Variable html_content : markup.









End Builder.












(** ** Normalizing a ratio value *)

























(** ** Steps of a computation *)

Lemma bind_call {A B : Type} (ev : event) (r : outcome A) (f : A -> M B) :
  bind (call ev r) f =
  match r with
  | Ok a => (result (f a), ev :: events (f a))
  | Raise e => (Raise e, [ev])
  end.
Proof. unfold bind, call, result, events. destruct r; [now destruct (f a) | reflexivity]. Qed.

Lemma bind_emit {B : Type} (ev : event) (f : unit -> M B) :
  bind (emit ev) f = (result (f tt), ev :: events (f tt)).
Proof. unfold bind, emit, result, events. now destruct (f tt). Qed.

Lemma bind_lift {A B : Type} (r : outcome A) (f : A -> M B) :
  bind (lift r) f =
  match r with
  | Ok a => f a
  | Raise e => (Raise e, [])
  end.
Proof. unfold bind, lift. destruct r; [now destruct (f a) | reflexivity]. Qed.

Lemma bind_result_events {A B : Type} (m : M A) (f : A -> M B) :
  bind m f =
  match result m with
  | Ok a => (result (f a), (events m ++ events (f a))%list)
  | Raise e => (Raise e, events m)
  end.
Proof.
  destruct m as [[a|e] t]; unfold bind, result, events; simpl;
    [now destruct (f a) | reflexivity].
Qed.

Lemma try_except_result_events {A : Type} (m : M A) (h : exn -> M A) :
  try_except m h =
  match result m with
  | Ok a => (Ok a, events m)
  | Raise e => (result (h e), (events m ++ events (h e))%list)
  end.
Proof.
  destruct m as [[a|e] t]; unfold try_except, result, events; simpl;
    [reflexivity | now destruct (h e)].
Qed.

(** ** The document text extractor *)

Section Reader.

Variable w : World.

(** The page loop reads the pages of its range in order and stops at the
    first one that raises. *)
Lemma for_pages_events (pages : list (outcome string)) (range : list nat) (acc : string) :
  exists k, events (for_pages pages range acc) = map ExtractText (firstn k range).
Proof.
  revert acc. induction range as [|i rest IH]; intro acc.
  - now exists 0.
  - cbn [for_pages]. rewrite bind_call.
    destruct (nth i pages _) as [t|e].
    + destruct (IH (if PyStr.nonempty t then acc ++ page_marker i ++ t else acc)) as [k Hk].
      exists (S k). unfold events at 1. cbn [snd firstn map]. now rewrite Hk.
    + now exists 1.
Qed.

(** On pages that all yield text the page loop appends the labelled pages. *)
Lemma for_pages_texts (texts : list string) (pre post : list (outcome string)) (acc : string) :
  for_pages (pre ++ map Ok texts ++ post)%list (seq (List.length pre) (List.length texts)) acc
  = (Ok (acc ++ labelled_pages (List.length pre) texts),
     map ExtractText (seq (List.length pre) (List.length texts))).
Proof.
  revert pre acc. induction texts as [|t r IH]; intros pre acc.
  - cbn. now rewrite app_empty_r.
  - cbn [List.length seq for_pages map labelled_pages]. rewrite bind_call.
    change ((Ok t :: map Ok r) ++ post)%list with (Ok t :: (map Ok r ++ post))%list.
    rewrite nth_middle.
    specialize (IH (pre ++ [Ok t])%list
                   (if PyStr.nonempty t then acc ++ page_marker (List.length pre) ++ t else acc)).
    rewrite <- app_assoc in IH. cbn [app] in IH.
    rewrite List.length_app in IH. cbn [List.length] in IH.
    replace (List.length pre + 1) with (S (List.length pre)) in IH by lia.
    rewrite IH. cbn [result events fst snd map]. f_equal. f_equal.
    destruct (PyStr.nonempty t).
    + now rewrite !app_assoc_s.
    + reflexivity.
Qed.

End Reader.

Lemma page_marker_dash (i : nat) (rest : string) :
  PyStr.mem "-" (page_marker i ++ rest) = true.
Proof. reflexivity. Qed.

(** The labelled text is empty when no page gave any text, and holds a
    marker otherwise. *)
Lemma labelled_pages_cases (texts : list string) (i : nat) :
  (Forall (fun t => t = "") texts /\ labelled_pages i texts = "")
  \/ (~ Forall (fun t => t = "") texts /\ PyStr.mem "-" (labelled_pages i texts) = true).
Proof.
  revert i. induction texts as [|t r IH]; intro i.
  - left. split; [constructor | reflexivity].
  - cbn [labelled_pages]. destruct t as [|c t].
    + destruct (IH (S i)) as [[Hall He]|[Hn Hm]].
      * left. split; [now constructor | exact He].
      * right. split; [|exact Hm]. intro H. apply Hn. now inversion H.
    + right. split.
      * intro H. inversion H. discriminate.
      * cbn [PyStr.nonempty]. rewrite app_assoc_s. apply page_marker_dash.
Qed.

Lemma blank_labelled_pages (texts : list string) (i : nat) :
  blank (labelled_pages i texts) = true <-> Forall (fun t => t = "") texts.
Proof.
  destruct (labelled_pages_cases texts i) as [[Hall He]|[Hn Hm]].
  - rewrite He. split; [intros _; exact Hall | reflexivity].
  - split; [|contradiction].
    unfold blank. rewrite (strip_keeps "-" _ eq_refl Hm). discriminate.
Qed.

Lemma pages_read_extract (l : list nat) : pages_read (map ExtractText l) = l.
Proof. induction l as [|i l IH]; simpl; [reflexivity | now rewrite IH]. Qed.

Lemma firstn_In {A : Type} (k : nat) (l : list A) (x : A) :
  In x (firstn k l) -> In x l.
Proof.
  revert k. induction l as [|y l IH]; intros [|k]; simpl; try tauto.
  intros [->|H]; [now left | right; eauto].
Qed.

Lemma download_and_extract_pages_read (w : World) (url : string) :
  Forall (fun i => i < 10) (pages_read (events (download_and_extract w url))).
Proof.
  unfold download_and_extract. rewrite bind_call.
  destruct (requests_get w _ _ _) as [r|e]; [|constructor].
  rewrite bind_lift. destruct (raise_for_status url r) as [[]|e]; [|constructor].
  rewrite bind_call. destruct (PdfReader w (content r)) as [pages|e];
    [|repeat constructor].
  rewrite bind_result_events.
  destruct (for_pages_events pages (seq 0 (Nat.min 10 (List.length pages))) "") as [k Hk].
  assert (Hr : Forall (fun i => i < 10)
                 (pages_read (events (for_pages pages (seq 0 (Nat.min 10 (List.length pages))) "")))).
  { rewrite Hk, pages_read_extract. apply Forall_forall. intros i Hi.
    apply firstn_In in Hi. apply in_seq in Hi. lia. }
  destruct (result (for_pages _ _ _)); cbn [events snd pages_read flat_map app];
    [rewrite app_nil_r|]; exact Hr.
Qed.

Lemma read_transcript_events (w : World) (url : string) :
  events (read_transcript w url) = events (download_and_extract w url).
Proof.
  unfold read_transcript. rewrite try_except_result_events.
  destruct (result (download_and_extract w url)); [reflexivity|].
  cbn. now rewrite app_nil_r.
Qed.

(** A document that is served and opened and whose first ten pages yield
    the texts [texts]: what [read_transcript] returns and does. *)
Lemma read_transcript_pages
    (w : World) (url : string) (r : response) (pages : list (outcome string))
    (texts : list string) :
  requests_get w url document_headers 15 = Ok r ->
  raise_for_status url r = Ok tt ->
  PdfReader w (content r) = Ok pages ->
  firstn 10 pages = map Ok texts ->
  Nat.min 10 (List.length pages) = List.length texts
  /\ read_transcript w url =
     (Ok (if blank (labelled_pages 0 texts) then no_text_sentinel
          else labelled_pages 0 texts),
      HttpGet url document_headers 15 :: PdfOpen (content r)
      :: map ExtractText (seq 0 (List.length texts))).
Proof.
  intros Hget Hstatus Hpdf Hten.
  assert (Hlen : Nat.min 10 (List.length pages) = List.length texts).
  { rewrite <- (length_map (@Ok string) texts), <- Hten. now rewrite length_firstn. }
  split; [exact Hlen|].
  assert (Hrun : download_and_extract w url =
                 (Ok (if blank (labelled_pages 0 texts) then no_text_sentinel
                      else labelled_pages 0 texts),
                  HttpGet url document_headers 15
                  :: PdfOpen (content r)
                  :: map ExtractText (seq 0 (List.length texts)))).
  { unfold download_and_extract. rewrite bind_call, Hget, bind_lift, Hstatus.
    rewrite bind_call, Hpdf, Hlen.
    rewrite <- (firstn_skipn 10 pages), Hten.
    pose proof (for_pages_texts texts [] (skipn 10 pages) "") as Hloop.
    cbn [app List.length] in Hloop. rewrite bind_result_events, Hloop.
    cbn [result events fst snd ret app]. rewrite app_nil_r.
    unfold blank.
    change ("" ++ labelled_pages 0 texts) with (labelled_pages 0 texts).
    now destruct (PyStr.nonempty (PyStr.strip (labelled_pages 0 texts))). }
  unfold read_transcript. now rewrite try_except_result_events, Hrun.
Qed.

(** C4.  When the document is served and opened, and the pages among its
    first ten yield the texts [texts], [read_transcript] reads the first
    [min 10 num_pages] pages and no other, so no call of it ever reads a
    page past the tenth, and returns these texts, each non-empty one under a
    marker with its 1-based page number.  It returns the sentinel
    "[Scanned PDF/No Text]" exactly when every page read gave the empty
    text.  Where the claim expects the sentinel also for extracted text
    that is whitespace only, the code departs from it: the test
    [text.strip()] is made on the text that already carries the markers, so
    a page whose text is a single space comes back labelled. *)
Theorem read_transcript_first_ten_pages
    (w : World) (url : string) (r : response) (pages : list (outcome string))
    (texts : list string) :
  requests_get w url document_headers 15 = Ok r ->
  raise_for_status url r = Ok tt ->
  PdfReader w (content r) = Ok pages ->
  firstn 10 pages = map Ok texts ->
  let text := labelled_pages 0 texts in
  result (read_transcript w url) = Ok (if blank text then no_text_sentinel else text)
  /\ (blank text = true -> result (read_transcript w url) = Ok "[Scanned PDF/No Text]")
  /\ (blank text = true <-> Forall (fun t => t = "") texts)
  /\ (forall i, page_marker i =
                nl ++ "--- PAGE " ++ PyStr.str_of_nat (i + 1) ++ " ---" ++ nl)
  /\ pages_read (events (read_transcript w url)) = seq 0 (Nat.min 10 (List.length pages))
  /\ Forall (fun i => i < 10) (pages_read (events (read_transcript w url)))
  /\ (Forall (fun t => blank t = true) texts ->
      Exists (fun t => t <> "") texts ->
      result (read_transcript w url) = Ok text
      /\ result (read_transcript w url) <> Ok "[Scanned PDF/No Text]")
  /\ (blank " " = true
      /\ PdfReader Example.w_space_page Example.pdf_bytes = Ok [Ok " "]
      /\ result (read_transcript Example.w_space_page "u") =
         Ok (nl ++ "--- PAGE 1 ---" ++ nl ++ " ")).
Proof.
  intros Hget Hstatus Hpdf Hten text.
  destruct (read_transcript_pages w url r pages texts Hget Hstatus Hpdf Hten) as [Hlen Hrun].
  fold text in Hrun.
  split. { now rewrite Hrun. }
  split. { intro Hb. now rewrite Hrun, Hb. }
  split; [apply blank_labelled_pages|].
  split; [reflexivity|].
  split.
  { rewrite Hrun. cbn [events snd pages_read flat_map app].
    fold (pages_read (map ExtractText (seq 0 (List.length texts)))).
    now rewrite pages_read_extract, Hlen. }
  split.
  { rewrite read_transcript_events. apply download_and_extract_pages_read. }
  split; [|repeat split; reflexivity].
  intros _ Hex.
  destruct (labelled_pages_cases texts 0) as [[Hall _]|[_ Hm]].
  { exfalso. apply Exists_exists in Hex. destruct Hex as [t [Hin Hne]].
    rewrite Forall_forall in Hall. now apply Hne, Hall. }
  assert (Hb : blank text = false).
  { unfold blank, text. now rewrite (strip_keeps "-" _ eq_refl Hm). }
  rewrite Hrun, Hb. cbn [result fst]. split; [reflexivity|].
  intro H. inversion H as [H']. unfold text in H'. rewrite H' in Hm. discriminate.
Qed.

Lemma read_transcript_first_ten_pages_witness :
  firstn 10 Example.fifteen_pages =
    map Ok (map (fun i => "text of page " ++ PyStr.str_of_nat i) (seq 1 10))
  /\ List.length Example.fifteen_pages = 15
  /\ pages_read (events (read_transcript Example.w_all_up "u")) = [0; 1; 2; 3; 4; 5; 6; 7; 8; 9]
  /\ blank (labelled_pages 0 [""; ""; ""]) = true
  /\ result (read_transcript Example.w_scanned "u") = Ok "[Scanned PDF/No Text]"
  /\ Forall (fun t => blank t = true) [" "]
  /\ result (read_transcript Example.w_space_page "u") <> Ok "[Scanned PDF/No Text]".
Proof.
  split; [reflexivity|]. split; [reflexivity|]. split.
  - apply (read_transcript_first_ten_pages Example.w_all_up "u"
             (mk_response 200 "OK" [] Example.pdf_bytes) Example.fifteen_pages
             (map (fun i => "text of page " ++ PyStr.str_of_nat i) (seq 1 10)));
      reflexivity.
  - split; [reflexivity|]. split.
    + apply (read_transcript_first_ten_pages Example.w_scanned "u"
               (mk_response 200 "OK" [] Example.pdf_bytes) Example.scanned_pages
               [""; ""; ""]); reflexivity.
    + split; [repeat constructor|].
      refine (proj2 (proj1 (proj2 (proj2 (proj2 (proj2 (proj2 (proj2
                (read_transcript_first_ten_pages Example.w_space_page "u"
                   (mk_response 200 "OK" [] Example.pdf_bytes) Example.space_page [" "]
                   _ _ _ _))))))) _ _)); try reflexivity.
      * repeat constructor.
      * constructor. discriminate.
Defined.

(** ** Failures of the document text extractor *)

Lemma read_transcript_total (w : World) (url : string) :
  result (read_transcript w url) = Ok (transcript_text w url).
Proof.
  unfold transcript_text, read_transcript. rewrite try_except_result_events.
  now destruct (result (download_and_extract w url)).
Qed.

Lemma read_transcript_caught (w : World) (url : string) (e : exn) :
  result (download_and_extract w url) = Raise e ->
  result (read_transcript w url) = Ok ("Could not read PDF: " ++ str_exn e).
Proof.
  intro H. unfold read_transcript. now rewrite try_except_result_events, H.
Qed.

(** The page loop stops at the first page that cannot be extracted. *)
Lemma for_pages_raise (texts : list string) (e : exn) (pre post : list (outcome string))
    (n : nat) (acc : string) :
  result (for_pages (pre ++ map Ok texts ++ Raise e :: post)%list
            (seq (List.length pre) (List.length texts + S n)) acc) = Raise e.
Proof.
  revert pre acc. induction texts as [|t r IH]; intros pre acc.
  - cbn [List.length map app Nat.add seq for_pages]. rewrite bind_call.
    now rewrite nth_middle.
  - cbn [List.length map Nat.add seq for_pages]. rewrite bind_call.
    change ((Ok t :: map Ok r) ++ Raise e :: post)%list
      with (Ok t :: (map Ok r ++ Raise e :: post))%list.
    rewrite nth_middle. cbn [result fst].
    specialize (IH (pre ++ [Ok t])%list
                   (if PyStr.nonempty t then acc ++ page_marker (List.length pre) ++ t else acc)).
    rewrite <- app_assoc in IH. cbn [app] in IH.
    rewrite List.length_app in IH. cbn [List.length] in IH.
    replace (List.length pre + 1) with (S (List.length pre)) in IH by lia.
    exact IH.
Qed.

Lemma raise_for_status_error (url : string) (r : response) :
  (400 <= status_code r < 600)%Z ->
  exists msg, raise_for_status url r = Raise (Exception "HTTPError" msg).
Proof.
  intro H. unfold raise_for_status.
  destruct ((400 <=? status_code r)%Z && (status_code r <? 500)%Z) eqn:E4; [eauto|].
  destruct ((500 <=? status_code r)%Z && (status_code r <? 600)%Z) eqn:E5; [eauto|].
  exfalso. apply andb_false_iff in E4, E5.
  rewrite Z.leb_gt, Z.ltb_ge in E4, E5. lia.
Qed.

Lemma collect_one_link (w : World) (url : string) :
  result (collect_transcripts w (Some [url])) =
  Ok (transcript_separator 0 ++ transcript_text w url).
Proof.
  unfold collect_transcripts. cbn [firstn for_links List.length].
  rewrite bind_emit. cbn [result fst]. rewrite bind_result_events.
  now rewrite read_transcript_total.
Qed.

(** C5. [read_transcript] never raises: it always returns a string, and
    whenever downloading or parsing raises an exception [e] that string is
    "Could not read PDF: " followed by [str(e)].  This covers a request that
    fails, a response with an error status, a document the PDF reader
    rejects and a page whose text cannot be extracted.  The handler then
    puts this string under the transcript separator like any extracted
    text. *)
Theorem read_transcript_never_raises (w : World) (url : string) :
  (exists s, result (read_transcript w url) = Ok s)
  /\ (forall e, result (download_and_extract w url) = Raise e ->
         result (read_transcript w url) = Ok ("Could not read PDF: " ++ str_exn e))
  /\ (forall e, requests_get w url document_headers 15 = Raise e ->
         result (read_transcript w url) = Ok ("Could not read PDF: " ++ str_exn e))
  /\ (forall r, requests_get w url document_headers 15 = Ok r ->
         (400 <= status_code r < 600)%Z ->
         exists msg,
           raise_for_status url r = Raise (Exception "HTTPError" msg)
           /\ result (read_transcript w url) = Ok ("Could not read PDF: " ++ msg))
  /\ (forall r e, requests_get w url document_headers 15 = Ok r ->
         raise_for_status url r = Ok tt ->
         PdfReader w (content r) = Raise e ->
         result (read_transcript w url) = Ok ("Could not read PDF: " ++ str_exn e))
  /\ (forall r texts e post,
         requests_get w url document_headers 15 = Ok r ->
         raise_for_status url r = Ok tt ->
         PdfReader w (content r) = Ok (map Ok texts ++ Raise e :: post)%list ->
         List.length texts < 10 ->
         result (read_transcript w url) = Ok ("Could not read PDF: " ++ str_exn e))
  /\ (forall e, result (download_and_extract w url) = Raise e ->
         result (collect_transcripts w (Some [url])) =
         Ok (transcript_separator 0 ++ "Could not read PDF: " ++ str_exn e)).
Proof.
  split. { eexists. apply read_transcript_total. }
  split. { apply read_transcript_caught. }
  split.
  { intros e H. apply read_transcript_caught.
    unfold download_and_extract. now rewrite bind_call, H. }
  split.
  { intros r H Hs. destruct (raise_for_status_error url r Hs) as [msg Hm].
    exists msg. split; [exact Hm|].
    apply (read_transcript_caught w url (Exception "HTTPError" msg)).
    unfold download_and_extract. now rewrite bind_call, H, bind_lift, Hm. }
  split.
  { intros r e H Hs Hp. apply read_transcript_caught.
    unfold download_and_extract. now rewrite bind_call, H, bind_lift, Hs, bind_call, Hp. }
  split.
  { intros r texts e post H Hs Hp Hlen. apply read_transcript_caught.
    unfold download_and_extract. rewrite bind_call, H, bind_lift, Hs, bind_call, Hp.
    cbn [result fst]. rewrite bind_result_events.
    rewrite List.length_app, length_map. cbn [List.length].
    replace (Nat.min 10 (List.length texts + S (List.length post)))
      with (List.length texts + S (Nat.min (9 - List.length texts) (List.length post)))
      by lia.
    pose proof (for_pages_raise texts e [] post
                  (Nat.min (9 - List.length texts) (List.length post)) "") as Hloop.
    cbn [app List.length] in Hloop. now rewrite Hloop. }
  intros e H. rewrite collect_one_link. unfold transcript_text.
  now rewrite (read_transcript_caught w url e H).
Qed.

Lemma read_transcript_never_raises_witness :
  requests_get Example.w_document_missing "u" document_headers 15 = Example.not_found
  /\ result (read_transcript Example.w_document_missing "u") =
     Ok ("Could not read PDF: "
         ++ str_exn (Exception "HTTPError" "404 Client Error: Not Found for url: u")).
Proof.
  split; [reflexivity|].
  apply (proj1 (proj2 (read_transcript_never_raises Example.w_document_missing "u"))
           (Exception "HTTPError" "404 Client Error: Not Found for url: u")).
  reflexivity.
Defined.

(** ** Events of the stages *)

Lemma get_company_ratios_events (w : World) (ticker : string) :
  events (get_company_ratios w ticker) =
  [HttpGet (profile_url ticker) profile_headers 10].
Proof.
  unfold get_company_ratios. rewrite try_except_result_events, bind_call.
  destruct (requests_get w _ _ _) as [r|e]; [|reflexivity].
  now destruct (negb (status_code r =? 200)%Z).
Qed.

Lemma get_financial_data_total (w : World) (ticker : string) :
  result (get_financial_data w ticker) = Ok (remote_ratios w ticker, remote_links w ticker).
Proof.
  unfold remote_ratios, remote_links, get_financial_data.
  rewrite try_except_result_events.
  destruct (result (_ <- fetch_ratios_and_links w ticker;; _)) as [[r l]|e] eqn:E.
  - reflexivity.
  - rewrite bind_emit. reflexivity.
Qed.

Lemma get_financial_data_quiet (w : World) (ticker : string) :
  Forall (fun e => quiet e = true) (events (get_financial_data w ticker)).
Proof.
  unfold get_financial_data, fetch_ratios_and_links.
  rewrite try_except_result_events, bind_result_events, bind_call.
  destruct (actor_call w _ _) as [run|e]; [|repeat constructor].
  rewrite bind_lift.
  destruct (getitem run "defaultDatasetId") as [id|e]; [|repeat constructor].
  rewrite bind_call.
  destruct (first_item_ratios (iterate_items w id)) as [ratios|e]; [|repeat constructor].
  rewrite bind_call.
  destruct (requests_get w _ _ _) as [r|e]; [|repeat constructor].
  rewrite bind_lift. destruct (page_links _ r); repeat constructor.
Qed.

Lemma downloads_extract (l : list nat) : downloads (map ExtractText l) = [].
Proof. induction l as [|i l IH]; [reflexivity | exact IH]. Qed.

Lemma generation_free_extract (l : list nat) :
  Forall (fun e => is_generation_event e = false) (map ExtractText l).
Proof. induction l as [|i l IH]; constructor; [reflexivity | exact IH]. Qed.

(** A call of [read_transcript] requests its link once and touches nothing
    but the document. *)
Lemma read_transcript_trace (w : World) (url : string) :
  downloads (events (read_transcript w url)) = [url]
  /\ Forall (fun e => is_generation_event e = false) (events (read_transcript w url)).
Proof.
  rewrite read_transcript_events. unfold download_and_extract. rewrite bind_call.
  destruct (requests_get w _ _ _) as [r|e]; [|split; [reflexivity | repeat constructor]].
  rewrite bind_lift.
  destruct (raise_for_status url r) as [[]|e]; [|split; [reflexivity | repeat constructor]].
  rewrite bind_call.
  destruct (PdfReader w (content r)) as [pages|e];
    [|split; [reflexivity | repeat constructor]].
  rewrite bind_result_events.
  destruct (for_pages_events pages (seq 0 (Nat.min 10 (List.length pages))) "") as [k Hk].
  assert (Hev : forall X : M string,
             events X = events (for_pages pages (seq 0 (Nat.min 10 (List.length pages))) "") ->
             downloads (HttpGet url document_headers 15 :: PdfOpen (content r) :: events X) = [url]
             /\ Forall (fun e => is_generation_event e = false)
                  (HttpGet url document_headers 15 :: PdfOpen (content r) :: events X)).
  { intros X ->. rewrite Hk. split.
    - change (downloads (HttpGet url document_headers 15 :: PdfOpen (content r) :: ?t))
        with (url :: downloads t).
      now rewrite downloads_extract.
    - repeat constructor. apply generation_free_extract. }
  destruct (result (for_pages _ _ _)); cbn [result events fst snd].
  - change (events (ret (if PyStr.nonempty (PyStr.strip a) then a else no_text_sentinel)))
      with (@nil event).
    rewrite app_nil_r. now apply Hev.
  - now apply Hev.
Qed.

Lemma downloads_app (a b : trace) : downloads (a ++ b)%list = (downloads a ++ downloads b)%list.
Proof. apply flat_map_app. Qed.

(** The loop over the links downloads each of them once, in order, and
    appends each returned text under its separator. *)
Lemma for_links_run (w : World) (links : list string) (i total : nat) (acc : string) :
  result (for_links w links i total acc) =
    Ok (acc ++ labelled_transcripts i (map (transcript_text w) links))
  /\ downloads (events (for_links w links i total acc)) = links
  /\ Forall (fun e => is_generation_event e = false) (events (for_links w links i total acc)).
Proof.
  revert i acc. induction links as [|link rest IH]; intros i acc.
  - cbn. rewrite app_empty_r. repeat split. constructor.
  - cbn [for_links map labelled_transcripts]. rewrite bind_emit, bind_result_events.
    rewrite read_transcript_total.
    change (transcript_label i) with (transcript_separator i).
    destruct (IH (S i) (acc ++ transcript_separator i ++ transcript_text w link))
      as [Hr [Hd Hg]].
    destruct (read_transcript_trace w link) as [Hd1 Hg1].
    cbn [result events fst snd]. unfold result, events in *.
    repeat split.
    + rewrite Hr. now rewrite !app_assoc_s.
    + change (downloads (StatusWrite ?s :: ?t)) with (downloads t).
      rewrite downloads_app, Hd1, Hd. reflexivity.
    + constructor; [reflexivity|]. apply Forall_app. now split.
Qed.

Lemma collect_transcripts_run (w : World) (links : list string) :
  result (collect_transcripts w (Some links)) =
    Ok (labelled_transcripts 0 (map (transcript_text w) (firstn 3 links)))
  /\ downloads (events (collect_transcripts w (Some links))) = firstn 3 links
  /\ Forall (fun e => is_generation_event e = false) (events (collect_transcripts w (Some links))).
Proof.
  unfold collect_transcripts. destruct links as [|l ls].
  - cbn. repeat split. repeat constructor.
  - apply (for_links_run w (firstn 3 (l :: ls)) 0 _ "").
Qed.

Lemma collect_transcripts_total (w : World) (ticker : string) :
  result (collect_transcripts w (remote_links w ticker)) = Ok (all_transcripts_text w ticker)
  /\ Forall (fun e => is_generation_event e = false)
       (events (collect_transcripts w (remote_links w ticker))).
Proof.
  unfold all_transcripts_text. destruct (remote_links w ticker) as [links|].
  - destruct (collect_transcripts_run w links) as [Hr [_ Hg]]. now rewrite Hr.
  - cbn. split; [reflexivity | repeat constructor].
Qed.

(** ** The generation call *)

Lemma generate_analysis_cases (w : World) (p : prompt) :
  generate_analysis w p =
  match generate_content w 1 gemini_model p with
  | Ok s => (Ok s, attempts_from p 1 1)
  | Raise _ =>
      match generate_content w 2 gemini_model p with
      | Ok s => (Ok s, attempts_from p 1 2)
      | Raise _ =>
          match generate_content w 3 gemini_model p with
          | Ok s => (Ok s, attempts_from p 1 3)
          | Raise e => (Raise (RetryError e), attempts_from p 1 3)
          end
      end
  end.
Proof.
  unfold generate_analysis, retry. cbn [Nat.sub retrying].
  unfold try_except, bind, call, emit, raise.
  destruct (generate_content w 1 gemini_model p); [reflexivity|].
  destruct (generate_content w 2 gemini_model p); [reflexivity|].
  destruct (generate_content w 3 gemini_model p); reflexivity.
Qed.

Lemma generate_analysis_trace (w : World) (p : prompt) :
  exists k, 1 <= k <= 3
            /\ events (generate_analysis w p) = attempts_from p 1 k
            /\ (k < 3 -> exists s, result (generate_analysis w p) = Ok s).
Proof.
  rewrite generate_analysis_cases.
  destruct (generate_content w 1 gemini_model p) as [s|_].
  { exists 1. repeat split; try lia. intros _. now exists s. }
  destruct (generate_content w 2 gemini_model p) as [s|_].
  { exists 2. repeat split; try lia. intros _. now exists s. }
  exists 3. destruct (generate_content w 3 gemini_model p); repeat split; lia.
Qed.

Lemma attempts_from_prompt (p : prompt) (k attempt n : nat) (model : string) (q : prompt) :
  In (GenerateContent n model q) (attempts_from p attempt k) -> q = p.
Proof.
  revert attempt. induction k as [|k IH]; intros attempt H; [contradiction|].
  destruct k as [|k].
  - destruct H as [H|[]]. now inversion H.
  - destruct H as [H|[H|H]]; [now inversion H | discriminate | eauto].
Qed.

Lemma synthesize_events (w : World) (p : prompt) :
  exists tail, events (synthesize w p) = (events (generate_analysis w p) ++ tail)%list
               /\ Forall (fun e => is_attempt e = false) tail.
Proof.
  unfold synthesize. rewrite try_except_result_events, bind_result_events.
  destruct (result (generate_analysis w p)) as [s|e]; cbn [result events fst snd].
  - eexists. split; [reflexivity|]. rewrite !bind_emit. repeat constructor.
  - eexists. split; [reflexivity|]. repeat constructor.
Qed.

(** ** The handler *)

Lemma get_company_ratios_result (w : World) (ticker : string) :
  result (get_company_ratios w ticker) = Ok (local_ratios w ticker).
Proof.
  unfold local_ratios. destruct (get_company_ratios_total w ticker) as [d ->]. reflexivity.
Qed.

(** The run of the handler on a ticker, stage by stage. *)
Lemma start_deep_research_run (w : World) (ticker : string) :
  PyStr.nonempty ticker = true ->
  start_deep_research w ticker =
  if truthy (remote_ratios w ticker)
  then (result (synthesize w (audit_prompt w ticker)),
        (StatusWrite msg_scraping :: events (get_company_ratios w ticker)
         ++ StatusWrite msg_gathering :: events (get_financial_data w ticker)
         ++ events (collect_transcripts w (remote_links w ticker))
         ++ StatusWrite msg_analysing :: events (synthesize w (audit_prompt w ticker)))%list)
  else (Ok tt,
        (StatusWrite msg_scraping :: events (get_company_ratios w ticker)
         ++ StatusWrite msg_gathering :: events (get_financial_data w ticker)
         ++ [StError msg_no_data; StStop])%list).
Proof.
  intro Ht. unfold start_deep_research. rewrite Ht. cbn [negb].
  rewrite bind_emit, bind_result_events, get_company_ratios_result.
  rewrite bind_emit, bind_result_events, get_financial_data_total.
  cbn [fst snd].
  destruct (truthy (remote_ratios w ticker)); cbn [negb].
  - rewrite bind_result_events, (proj1 (collect_transcripts_total w ticker)), bind_emit.
    reflexivity.
  - rewrite !bind_emit. reflexivity.
Qed.

Lemma quiet_spec (e : event) :
  quiet e = true <-> is_document_event e = false /\ is_generation_event e = false.
Proof.
  unfold quiet. rewrite andb_true_iff, !negb_true_iff. tauto.
Qed.

Lemma halted_run_quiet (w : World) (ticker : string) :
  Forall (fun e => quiet e = true)
    (StatusWrite msg_scraping :: events (get_company_ratios w ticker)
     ++ StatusWrite msg_gathering :: events (get_financial_data w ticker)
     ++ [StError msg_no_data; StStop])%list.
Proof.
  constructor; [reflexivity|]. apply Forall_app. split.
  - rewrite get_company_ratios_events. repeat constructor.
  - constructor; [reflexivity|]. apply Forall_app. split.
    + apply get_financial_data_quiet.
    + repeat constructor.
Qed.

Lemma quiet_trace (t : trace) :
  Forall (fun e => quiet e = true) t ->
  downloads t = [] /\ filter is_attempt t = [].
Proof.
  induction 1 as [|e l He _ [IHd IHa]]; [now split|].
  apply quiet_spec in He. destruct He as [Hd Hg]. split.
  - destruct e; try exact IHd; try discriminate.
    cbn [downloads flat_map]. cbn [is_document_event] in Hd.
    destruct (dict_get "Accept" headers); [discriminate | exact IHd].
  - destruct e; try exact IHa; discriminate.
Qed.

(** Without remote ratios the handler stops after the two fetches. *)
Lemma halts_without_ratios (w : World) (ticker : string) :
  PyStr.nonempty ticker = true ->
  truthy (remote_ratios w ticker) = false ->
  result (start_deep_research w ticker) = Ok tt
  /\ (exists before,
        events (start_deep_research w ticker) =
        (before ++ [StError "Failed to fetch financial data."; StStop])%list)
  /\ Forall (fun e => is_document_event e = false /\ is_generation_event e = false)
       (events (start_deep_research w ticker))
  /\ downloads (events (start_deep_research w ticker)) = []
  /\ filter is_attempt (events (start_deep_research w ticker)) = [].
Proof.
  intros Ht Hr. rewrite (start_deep_research_run w ticker Ht), Hr.
  cbn [result events fst snd].
  pose proof (halted_run_quiet w ticker) as Hq.
  split; [reflexivity|]. split.
  { exists (StatusWrite msg_scraping :: events (get_company_ratios w ticker)
            ++ StatusWrite msg_gathering :: events (get_financial_data w ticker))%list.
    cbn [app]. now rewrite <- app_assoc. }
  assert (Hall : Forall (fun e => is_document_event e = false /\ is_generation_event e = false)
                   (StatusWrite msg_scraping :: events (get_company_ratios w ticker)
                    ++ StatusWrite msg_gathering :: events (get_financial_data w ticker)
                    ++ [StError msg_no_data; StStop])%list).
  { eapply Forall_impl; [|exact Hq]. intros e He. now apply quiet_spec. }
  split; [exact Hall|].
  now apply quiet_trace.
Qed.

(** C1. When the remote fetch hands back no ratios (a null, an empty
    dictionary or any other value that counts as false), the handler shows
    "Failed to fetch financial data." and stops: no transcript document is
    requested, opened or read and the generation service is not called. *)
Theorem no_ratios_halts (w : World) (ticker : string) :
  PyStr.nonempty ticker = true ->
  truthy (remote_ratios w ticker) = false ->
  result (start_deep_research w ticker) = Ok tt
  /\ (exists before,
        events (start_deep_research w ticker) =
        (before ++ [StError "Failed to fetch financial data."; StStop])%list)
  /\ Forall (fun e => is_document_event e = false /\ is_generation_event e = false)
       (events (start_deep_research w ticker))
  /\ downloads (events (start_deep_research w ticker)) = []
  /\ filter is_attempt (events (start_deep_research w ticker)) = [].
Proof. exact (halts_without_ratios w ticker). Qed.

Lemma no_ratios_halts_witness :
  PyStr.nonempty "X" = true
  /\ remote_ratios Example.w_no_ratios "X" = JObj []
  /\ filter is_attempt (events (start_deep_research Example.w_no_ratios "X")) = [].
Proof.
  split; [reflexivity|]. split; [reflexivity|].
  apply (no_ratios_halts Example.w_no_ratios "X"); reflexivity.
Defined.

(** ** The remote ratio fetcher *)

Lemma get_financial_data_caught (w : World) (ticker : string) (e : exn) :
  result (fetch_ratios_and_links w ticker) = Raise e ->
  get_financial_data w ticker =
  (Ok (JNull, None),
   (events (fetch_ratios_and_links w ticker)
    ++ [StError ("Data Acquisition Error: " ++ str_exn e)])%list).
Proof.
  intro H. unfold get_financial_data.
  rewrite try_except_result_events, bind_result_events, H. cbn [result events fst snd].
  rewrite bind_emit. reflexivity.
Qed.

Lemma page_fetch_failure (w : World) (ticker : string) (run id : json)
    (item : dict json) (rest : items) (e : exn) :
  actor_call w screener_actor (actor_input (consolidated_url ticker)) = Ok run ->
  getitem run "defaultDatasetId" = Ok id ->
  iterate_items w id = ItemsCons item rest ->
  requests_get w (consolidated_url ticker) page_headers 10 = Raise e ->
  result (fetch_ratios_and_links w ticker) = Raise e.
Proof.
  intros Ha Hg Hi Hr. unfold fetch_ratios_and_links.
  rewrite bind_call, Ha, bind_lift, Hg. cbn [result fst].
  rewrite bind_call, Hi. cbn [first_item_ratios result fst].
  now rewrite bind_call, Hr.
Qed.

(** C10. Whenever a step of the combined fetch raises, [get_financial_data]
    returns (None, None) after showing the error, and the handler then
    stops the request with "Failed to fetch financial data." without
    reading a transcript or calling the generation service.  This is so in
    particular when the request for the page with the transcript links
    raises after the actor's dataset has supplied a first item: its ratios
    are dropped. *)
Theorem fetch_exception_discards_ratios :
  (forall (w : World) (ticker : string) (e : exn),
      result (fetch_ratios_and_links w ticker) = Raise e ->
      result (get_financial_data w ticker) = Ok (JNull, None)
      /\ In (StError ("Data Acquisition Error: " ++ str_exn e))
            (events (get_financial_data w ticker))
      /\ (PyStr.nonempty ticker = true ->
          result (start_deep_research w ticker) = Ok tt
          /\ (exists before,
                events (start_deep_research w ticker) =
                (before ++ [StError "Failed to fetch financial data."; StStop])%list)
          /\ downloads (events (start_deep_research w ticker)) = []
          /\ filter is_attempt (events (start_deep_research w ticker)) = []))
  /\ (forall (w : World) (ticker : string) (run id : json) (item : dict json)
             (rest : items) (e : exn),
         actor_call w screener_actor (actor_input (consolidated_url ticker)) = Ok run ->
         getitem run "defaultDatasetId" = Ok id ->
         iterate_items w id = ItemsCons item rest ->
         requests_get w (consolidated_url ticker) page_headers 10 = Raise e ->
         result (fetch_ratios_and_links w ticker) = Raise e
         /\ result (get_financial_data w ticker) = Ok (JNull, None)).
Proof.
  split.
  - intros w ticker e H. rewrite (get_financial_data_caught w ticker e H).
    cbn [result events fst snd].
    split; [reflexivity|]. split; [apply in_or_app; right; now left|].
    intro Ht.
    assert (Hr : truthy (remote_ratios w ticker) = false).
    { unfold remote_ratios. now rewrite (get_financial_data_caught w ticker e H). }
    destruct (halts_without_ratios w ticker Ht Hr) as [H1 [H2 [_ [H3 H4]]]].
    now repeat split.
  - intros w ticker run id item rest e Ha Hg Hi Hr.
    pose proof (page_fetch_failure w ticker run id item rest e Ha Hg Hi Hr) as H.
    split; [exact H|]. now rewrite (get_financial_data_caught w ticker e H).
Qed.

Lemma fetch_exception_discards_ratios_witness :
  first_item_ratios (iterate_items Example.w_page_down (JStr "d1")) =
    Ok (JObj [("Market Cap", JStr "1,000 Cr."); ("Stock P/E", JStr "23.5")])
  /\ requests_get Example.w_page_down (consolidated_url "X") page_headers 10 =
     Raise Example.connection_error
  /\ result (get_financial_data Example.w_page_down "X") = Ok (JNull, None).
Proof.
  split; [reflexivity|]. split; [reflexivity|].
  apply (proj2 fetch_exception_discards_ratios Example.w_page_down "X"
           (JObj [("id", JStr "r1"); ("defaultDatasetId", JStr "d1")]) (JStr "d1")
           Example.first_item (ItemsCons Example.second_item ItemsEnd)
           Example.connection_error); reflexivity.
Defined.

Lemma get_financial_data_first_item (w : World) (ticker : string) (run id : json)
    (item : dict json) (rest : items) (r : response) (links : list string) :
  actor_call w screener_actor (actor_input (consolidated_url ticker)) = Ok run ->
  getitem run "defaultDatasetId" = Ok id ->
  iterate_items w id = ItemsCons item rest ->
  requests_get w (consolidated_url ticker) page_headers 10 = Ok r ->
  page_links (recursion_room w) r = Ok links ->
  get_financial_data w ticker =
  (Ok (match dict_get "ratios" item with Some v => v | None => JObj item end, Some links),
   [ActorCall screener_actor (actor_input (consolidated_url ticker));
    DatasetIterate id;
    HttpGet (consolidated_url ticker) page_headers 10]).
Proof.
  intros Ha Hg Hi Hr Hl. unfold get_financial_data, fetch_ratios_and_links.
  rewrite try_except_result_events, bind_result_events.
  rewrite bind_call, Ha, bind_lift, Hg. cbn [result events fst snd].
  rewrite bind_call, Hi. cbn [first_item_ratios result events fst snd].
  rewrite bind_call, Hr, bind_lift, Hl. reflexivity.
Qed.

(** When the search of the page raises, the first item's ratios are dropped
    with the rest. *)
Lemma get_financial_data_search_raises (w : World) (ticker : string) (run id ratios : json)
    (r : response) (e : exn) :
  actor_call w screener_actor (actor_input (consolidated_url ticker)) = Ok run ->
  getitem run "defaultDatasetId" = Ok id ->
  first_item_ratios (iterate_items w id) = Ok ratios ->
  requests_get w (consolidated_url ticker) page_headers 10 = Ok r ->
  page_links (recursion_room w) r = Raise e ->
  get_financial_data w ticker =
  (Ok (JNull, None),
   [ActorCall screener_actor (actor_input (consolidated_url ticker));
    DatasetIterate id;
    HttpGet (consolidated_url ticker) page_headers 10;
    StError ("Data Acquisition Error: " ++ str_exn e)]).
Proof.
  intros Ha Hg Hi Hr Hl. unfold get_financial_data, fetch_ratios_and_links.
  rewrite try_except_result_events, bind_result_events.
  rewrite bind_call, Ha, bind_lift, Hg. cbn [result events fst snd].
  rewrite bind_call, Hi. cbn [result events fst snd].
  rewrite bind_call, Hr, bind_lift, Hl. cbn [result events fst snd].
  rewrite bind_emit. reflexivity.
Qed.

(** With a first item in the dataset, the fetch either hands over that
    item's ratios or, a later step having raised, nothing at all. *)
Lemma first_item_or_nothing (w : World) (ticker : string) (run id : json)
    (item : dict json) (rest : items) :
  actor_call w screener_actor (actor_input (consolidated_url ticker)) = Ok run ->
  getitem run "defaultDatasetId" = Ok id ->
  iterate_items w id = ItemsCons item rest ->
  (remote_links w ticker <> None
   /\ remote_ratios w ticker =
      match dict_get "ratios" item with Some v => v | None => JObj item end)
  \/ (remote_links w ticker = None /\ remote_ratios w ticker = JNull).
Proof.
  intros Ha Hg Hi. unfold remote_links, remote_ratios.
  destruct (requests_get w (consolidated_url ticker) page_headers 10) as [r|e] eqn:Hr.
  - destruct (page_links (recursion_room w) r) as [links|e] eqn:Hl.
    + rewrite (get_financial_data_first_item w ticker run id item rest r links Ha Hg Hi Hr Hl).
      left. split; [discriminate | reflexivity].
    + assert (Hf : first_item_ratios (iterate_items w id) =
                   Ok (match dict_get "ratios" item with Some v => v | None => JObj item end))
        by now rewrite Hi.
      rewrite (get_financial_data_search_raises w ticker run id _ r e Ha Hg Hf Hr Hl).
      now right.
  - rewrite (get_financial_data_caught w ticker e
               (page_fetch_failure w ticker run id item rest e Ha Hg Hi Hr)).
    now right.
Qed.

Lemma get_financial_data_rest (w : World) (ticker : string) (item : dict json)
    (rest rest' : items) :
  get_financial_data (with_dataset w (ItemsCons item rest)) ticker =
  get_financial_data (with_dataset w (ItemsCons item rest')) ticker.
Proof.
  unfold get_financial_data, fetch_ratios_and_links.
  rewrite !bind_call. cbn [actor_call with_dataset].
  destruct (actor_call w _ _) as [run|e]; [|reflexivity].
  rewrite !bind_lift.
  destruct (getitem run "defaultDatasetId") as [id|e]; reflexivity.
Qed.

(** C9. The ratios [get_financial_data] returns are taken from the first
    item of the dataset alone.  Whenever the fetch returns ratios at all,
    that is whenever no later step of it raised, they are the value of that
    item's "ratios" field, or the whole item when it has no such field; so
    in particular when the page of links is served and its search returns.
    Whatever follows the first item in the dataset is not looked at: two
    datasets with the same first item give the same result and the same
    events, whatever else they hold. *)
Theorem first_dataset_item_only :
  (forall (w : World) (ticker : string) (run id : json) (item : dict json) (rest : items),
      actor_call w screener_actor (actor_input (consolidated_url ticker)) = Ok run ->
      getitem run "defaultDatasetId" = Ok id ->
      iterate_items w id = ItemsCons item rest ->
      (remote_links w ticker <> None ->
       remote_ratios w ticker =
         match dict_get "ratios" item with
         | Some ratios => ratios
         | None => JObj item
         end
       /\ (forall ratios, dict_get "ratios" item = Some ratios ->
                          remote_ratios w ticker = ratios)
       /\ (dict_get "ratios" item = None -> remote_ratios w ticker = JObj item))
      /\ (forall r links,
            requests_get w (consolidated_url ticker) page_headers 10 = Ok r ->
            page_links (recursion_room w) r = Ok links ->
            result (get_financial_data w ticker) =
            Ok (match dict_get "ratios" item with
                | Some ratios => ratios
                | None => JObj item
                end, Some links))
      /\ (forall r,
            requests_get w (consolidated_url ticker) page_headers 10 = Ok r ->
            status_code r <> 200%Z ->
            remote_links w ticker = Some []))
  /\ (forall (w : World) (ticker : string) (item : dict json) (rest rest' : items),
         get_financial_data (with_dataset w (ItemsCons item rest)) ticker =
         get_financial_data (with_dataset w (ItemsCons item rest')) ticker).
Proof.
  split; [|exact get_financial_data_rest].
  intros w ticker run id item rest Ha Hg Hi. split; [|split].
  - intro Hl.
    destruct (first_item_or_nothing w ticker run id item rest Ha Hg Hi) as [[_ Hrr]|[Hn _]];
      [|contradiction].
    split; [exact Hrr|]. split.
    + intros v Hv. now rewrite Hrr, Hv.
    + intro Hn. now rewrite Hrr, Hn.
  - intros r links Hr Hl.
    now rewrite (get_financial_data_first_item w ticker run id item rest r links Ha Hg Hi Hr Hl).
  - intros r Hr Hs. unfold remote_links.
    rewrite (get_financial_data_first_item w ticker run id item rest r [] Ha Hg Hi Hr);
      [reflexivity|].
    unfold page_links. now destruct (Z.eqb_spec (status_code r) 200).
Qed.

Lemma first_dataset_item_only_witness :
  iterate_items Example.w_all_up (JStr "d1") =
    ItemsCons Example.first_item (ItemsCons Example.second_item ItemsEnd)
  /\ remote_links Example.w_all_up "X" =
     Some ["https://www.screener.in/company/X/concalls/123/"]
  /\ remote_ratios Example.w_all_up "X" =
     JObj [("Market Cap", JStr "1,000 Cr."); ("Stock P/E", JStr "23.5")].
Proof.
  split; [reflexivity|]. split; [vm_compute; reflexivity|].
  refine (proj1 (proj1 (proj1 first_dataset_item_only Example.w_all_up "X"
           (JObj [("id", JStr "r1"); ("defaultDatasetId", JStr "d1")]) (JStr "d1")
           Example.first_item (ItemsCons Example.second_item ItemsEnd) _ _ _) _)).
  - reflexivity.
  - reflexivity.
  - reflexivity.
  - vm_compute. discriminate.
Defined.

(** ** Retrying the generation call *)

(** The exponential wait stays between its bounds, and so does the random
    wait drawn below it. *)
Lemma wait_exponential_bounds (wait_min wait_max : Z) (attempt : nat) :
  (0 <= wait_min <= wait_max)%Z ->
  (wait_min <= wait_exponential wait_min wait_max attempt <= wait_max)%Z.
Proof. unfold wait_exponential. lia. Qed.

Lemma wait_random_exponential_bounds (wait_min wait_max : Z) (attempt : nat) (u : Q) :
  (0 <= wait_min <= wait_max)%Z ->
  (0 <= u <= 1)%Q ->
  (inject_Z wait_min <= wait_random_exponential wait_min wait_max attempt u
   <= inject_Z wait_max)%Q.
Proof.
  intros Hm Hu.
  destruct (wait_exponential_bounds wait_min wait_max attempt Hm) as [H1 H2].
  unfold wait_random_exponential. rewrite Zle_Qle in H1, H2.
  set (h := inject_Z (wait_exponential wait_min wait_max attempt)) in *.
  set (a := inject_Z wait_min) in *. set (b := inject_Z wait_max) in *.
  split; nra.
Qed.

(** A wait of the trace of three failed attempts follows the first or the
    second of them. *)
Lemma waits_of_three_attempts (p : prompt) (ev : event) :
  In ev (attempts_from p 1 3) -> is_wait ev = true ->
  ev = Sleep 10 60 1 \/ ev = Sleep 10 60 2.
Proof.
  cbn [attempts_from]. intros Hin Hw.
  repeat (destruct Hin as [<-|Hin]; [try discriminate Hw; auto|]). destruct Hin.
Qed.

(** C2, as the code has it.  When the generation call raises on each of its
    attempts, whatever the exceptions are, [generate_analysis] makes exactly
    three attempts and waits after the first and after the second.  A wait
    is drawn between 10 seconds and an upper end that doubles from attempt
    to attempt and is kept between 10 and 60 seconds, so every wait lasts
    between 10 and 60 seconds; after the first and the second attempt the
    upper end is still 10 seconds, so these two waits last 10 seconds.
    Then the call raises: the caller receives the decorator's [RetryError],
    which carries the exception of the third attempt.  The handler shows
    this error and no report.  On every run the call makes between one and
    three attempts, and fewer than three only when one of them returned. *)
Theorem generate_analysis_three_attempts (w : World) (p : prompt) (e1 e2 e3 : exn) :
  generate_content w 1 gemini_model p = Raise e1 ->
  generate_content w 2 gemini_model p = Raise e2 ->
  generate_content w 3 gemini_model p = Raise e3 ->
  result (generate_analysis w p) = Raise (RetryError e3)
  /\ events (generate_analysis w p) =
     [GenerateContent 1 gemini_model p; Sleep 10 60 1;
      GenerateContent 2 gemini_model p; Sleep 10 60 2;
      GenerateContent 3 gemini_model p]
  /\ List.length (filter is_attempt (events (generate_analysis w p))) = 3
  /\ result (synthesize w p) = Ok tt
  /\ filter is_report (events (synthesize w p)) = []
  /\ In (StError (" Error:  " ++ str_exn (RetryError e3))) (events (synthesize w p))
  /\ (forall (w' : World) (p' : prompt),
        exists k, 1 <= k <= 3
                  /\ events (generate_analysis w' p') = attempts_from p' 1 k
                  /\ (k < 3 -> exists s, result (generate_analysis w' p') = Ok s))
  /\ (forall (ev : event) (u : Q),
        In ev (events (generate_analysis w p)) -> is_wait ev = true ->
        (0 <= u <= 1)%Q ->
        exists d, seconds_slept ev u = Some d /\ (10 <= d <= 60)%Q /\ (d == 10)%Q)
  /\ (forall (attempt : nat) (u : Q),
        (0 <= u <= 1)%Q ->
        (10 <= wait_random_exponential 10 60 attempt u <= 60)%Q)
  /\ (forall (attempt : nat) (u : Q),
        (wait_random_exponential 10 60 attempt u ==
         10 + (inject_Z (Z.max 10 (Z.min (2 ^ Z.of_nat (attempt - 1)) 60)) - 10) * u)%Q)
  /\ map (wait_exponential 10 60) (seq 1 8) = [10; 10; 10; 10; 16; 32; 60; 60]%Z.
Proof.
  intros H1 H2 H3.
  assert (Hrun : generate_analysis w p =
                 (Raise (RetryError e3), attempts_from p 1 3)).
  { now rewrite generate_analysis_cases, H1, H2, H3. }
  assert (Hsyn : synthesize w p =
                 (Ok tt, (attempts_from p 1 3
                          ++ [StError (" Error:  " ++ str_exn (RetryError e3))])%list)).
  { unfold synthesize. now rewrite try_except_result_events, bind_result_events, Hrun. }
  assert (Hb : forall (attempt : nat) (u : Q),
             (0 <= u <= 1)%Q -> (10 <= wait_random_exponential 10 60 attempt u <= 60)%Q).
  { intros attempt u Hu.
    apply (wait_random_exponential_bounds 10 60 attempt u); [lia | exact Hu]. }
  rewrite Hrun, Hsyn. cbn [result events fst snd].
  split; [reflexivity|]. split; [reflexivity|]. split; [reflexivity|].
  split; [reflexivity|]. split; [reflexivity|].
  split; [cbn; do 5 right; now left|].
  split; [intros w' p'; apply generate_analysis_trace|].
  split; [|split; [exact Hb|split; [|reflexivity]]].
  - intros ev u Hin Hw Hu.
    destruct (waits_of_three_attempts p ev Hin Hw) as [-> | ->]; cbn [seconds_slept];
      eexists; (split; [reflexivity|]); (split; [now apply Hb|]);
      unfold wait_random_exponential;
      [change (wait_exponential 10 60 1) with 10%Z | change (wait_exponential 10 60 2) with 10%Z];
      ring.
  - intros attempt u. unfold wait_random_exponential, wait_exponential.
    replace (Z.max (Z.max 0 10) (Z.min (1 * 2 ^ Z.of_nat (attempt - 1)) 60))
      with (Z.max 10 (Z.min (2 ^ Z.of_nat (attempt - 1)) 60)) by lia.
    reflexivity.
Qed.

Lemma generate_analysis_three_attempts_witness :
  Example.service_down 3 = Raise (Exception "ServerError" "503 UNAVAILABLE, attempt 3")
  /\ result (generate_analysis Example.w_service_down (mk_prompt "X" [] JNull "")) =
     Raise (RetryError (Exception "ServerError" "503 UNAVAILABLE, attempt 3")).
Proof.
  split; [reflexivity|].
  apply (generate_analysis_three_attempts Example.w_service_down (mk_prompt "X" [] JNull "")
           (Exception "ServerError" "503 UNAVAILABLE, attempt 1")
           (Exception "ServerError" "503 UNAVAILABLE, attempt 2")
           (Exception "ServerError" "503 UNAVAILABLE, attempt 3"));
    reflexivity.
Defined.

(** C2, as the claim has it, fails in its last part: what reaches the caller
    after the third failed attempt is not the exception of that attempt but
    the decorator's [RetryError] around it (the decorator is not given
    reraise=True). *)
Lemma retry_error_reaches_caller :
  generate_content Example.w_service_down 3 gemini_model (mk_prompt "X" [] JNull "") =
    Raise (Exception "ServerError" "503 UNAVAILABLE, attempt 3")
  /\ result (generate_analysis Example.w_service_down (mk_prompt "X" [] JNull "")) =
     Raise (RetryError (Exception "ServerError" "503 UNAVAILABLE, attempt 3"))
  /\ result (generate_analysis Example.w_service_down (mk_prompt "X" [] JNull "")) <>
     Raise (Exception "ServerError" "503 UNAVAILABLE, attempt 3").
Proof.
  split; [reflexivity|]. split; [reflexivity|]. discriminate.
Qed.

(** ** The transcript segment of the prompt *)

(** Every call of the generation service receives the handler's prompt. *)
Lemma start_deep_research_prompt (w : World) (ticker : string)
    (attempt : nat) (model : string) (p : prompt) :
  In (GenerateContent attempt model p) (events (start_deep_research w ticker)) ->
  p = audit_prompt w ticker.
Proof.
  destruct (PyStr.nonempty ticker) eqn:Ht.
  2:{ unfold start_deep_research. rewrite Ht. cbn. intros [H|[]]. discriminate. }
  rewrite (start_deep_research_run w ticker Ht).
  destruct (truthy (remote_ratios w ticker)); cbn [events snd]; intro Hin.
  - assert (Hno : forall t, Forall (fun e => is_generation_event e = false) t ->
                            ~ In (GenerateContent attempt model p) t).
    { intros t Hf Hi. rewrite Forall_forall in Hf. specialize (Hf _ Hi). discriminate. }
    destruct Hin as [Hin|Hin]; [discriminate|].
    apply in_app_or in Hin. destruct Hin as [Hin|Hin].
    { rewrite get_company_ratios_events in Hin. destruct Hin as [Hin|[]]. discriminate. }
    destruct Hin as [Hin|Hin]; [discriminate|].
    apply in_app_or in Hin. destruct Hin as [Hin|Hin].
    { exfalso. revert Hin. apply Hno.
      eapply Forall_impl; [|apply get_financial_data_quiet].
      intros e He. now apply quiet_spec in He. }
    apply in_app_or in Hin. destruct Hin as [Hin|Hin].
    { exfalso. revert Hin. apply Hno. apply collect_transcripts_total. }
    destruct Hin as [Hin|Hin]; [discriminate|].
    destruct (synthesize_events w (audit_prompt w ticker)) as [tail [Hev Htail]].
    rewrite Hev in Hin. apply in_app_or in Hin. destruct Hin as [Hin|Hin].
    + destruct (generate_analysis_trace w (audit_prompt w ticker)) as [k [_ [Hk _]]].
      rewrite Hk in Hin. now apply attempts_from_prompt in Hin.
    + exfalso. rewrite Forall_forall in Htail. specialize (Htail _ Hin). discriminate.
  - exfalso. pose proof (halted_run_quiet w ticker) as Hq.
    rewrite Forall_forall in Hq. specialize (Hq _ Hin). discriminate.
Qed.

(** The separators of the first three transcripts, written out. *)
Lemma labelled_transcripts_one (t1 : string) :
  labelled_transcripts 0 [t1] = nl ++ "--- TRANSCRIPT 1 SOURCE ---" ++ nl ++ t1.
Proof.
  cbn [labelled_transcripts]. unfold transcript_label.
  change (PyStr.str_of_nat (0 + 1)) with "1".
  rewrite app_empty_r, !app_assoc_s. reflexivity.
Qed.

Lemma labelled_transcripts_three (t1 t2 t3 : string) :
  labelled_transcripts 0 [t1; t2; t3] =
  nl ++ "--- TRANSCRIPT 1 SOURCE ---" ++ nl ++ t1
  ++ nl ++ "--- TRANSCRIPT 2 SOURCE ---" ++ nl ++ t2
  ++ nl ++ "--- TRANSCRIPT 3 SOURCE ---" ++ nl ++ t3.
Proof.
  cbn [labelled_transcripts]. unfold transcript_label.
  change (PyStr.str_of_nat (0 + 1)) with "1".
  change (PyStr.str_of_nat (1 + 1)) with "2".
  change (PyStr.str_of_nat (2 + 1)) with "3".
  rewrite app_empty_r, !app_assoc_s. reflexivity.
Qed.

(** C3. The handler takes the first three links, in the order of the page,
    downloads each once, and concatenates the texts returned for them, each
    under its separator, the line "--- TRANSCRIPT n SOURCE ---" with the
    number of the transcript counted from 1.  The segment put into the
    prompt is this text cut to its first 165,000 characters: it is never
    longer than that, it is a prefix of the concatenation (nothing is
    dropped or reordered before the cut), and it is the whole concatenation
    when that has at most 165,000 characters. *)
Theorem transcript_segment_capped (w : World) (links : list string) :
  let recent_links := firstn 3 links in
  let all_text := labelled_transcripts 0 (map (transcript_text w) recent_links) in
  let segment := PyStr.take 165000 all_text in
  result (collect_transcripts w (Some links)) = Ok all_text
  /\ downloads (events (collect_transcripts w (Some links))) = recent_links
  /\ List.length recent_links <= 3
  /\ (PyStr.len segment <= 165000)%N
  /\ PyStr.len segment = N.min 165000 (PyStr.len all_text)
  /\ (exists rest, all_text = segment ++ rest)
  /\ ((PyStr.len all_text <= 165000)%N -> segment = all_text)
  /\ (forall (ticker : string) (attempt : nat) (model : string) (p : prompt),
        remote_links w ticker = Some links ->
        In (GenerateContent attempt model p) (events (start_deep_research w ticker)) ->
        p_snippets p = segment)
  /\ (forall l1 : string,
        links = [l1] ->
        all_text = nl ++ "--- TRANSCRIPT 1 SOURCE ---" ++ nl ++ transcript_text w l1)
  /\ (forall (l1 l2 l3 : string) (more : list string),
        links = l1 :: l2 :: l3 :: more ->
        all_text =
        nl ++ "--- TRANSCRIPT 1 SOURCE ---" ++ nl ++ transcript_text w l1
        ++ nl ++ "--- TRANSCRIPT 2 SOURCE ---" ++ nl ++ transcript_text w l2
        ++ nl ++ "--- TRANSCRIPT 3 SOURCE ---" ++ nl ++ transcript_text w l3)
  /\ (forall (i : nat) (t : string) (texts : list string),
        labelled_transcripts i (t :: texts) =
        (nl ++ "--- TRANSCRIPT " ++ PyStr.str_of_nat (i + 1) ++ " SOURCE ---" ++ nl ++ t)
        ++ labelled_transcripts (S i) texts).
Proof.
  intros recent_links all_text segment.
  destruct (collect_transcripts_run w links) as [Hr [Hd _]].
  split; [exact Hr|]. split; [exact Hd|].
  split. { unfold recent_links. rewrite length_firstn. lia. }
  split. { unfold segment. rewrite take_len. lia. }
  split. { apply take_len. }
  split. { apply take_split. }
  split. { apply take_all. }
  split.
  { intros ticker attempt model p Hl Hin.
    rewrite (start_deep_research_prompt w ticker attempt model p Hin).
    unfold audit_prompt, all_transcripts_text. cbn [p_snippets]. now rewrite Hl, Hr. }
  split; [|split].
  - intros l1 ->. apply labelled_transcripts_one.
  - intros l1 l2 l3 more ->. apply labelled_transcripts_three.
  - intros i t texts. cbn [labelled_transcripts]. unfold transcript_label.
    now rewrite !app_assoc_s.
Qed.

Lemma transcript_segment_capped_witness :
  remote_links Example.w_all_up "X" = Some ["https://www.screener.in/company/X/concalls/123/"]
  /\ p_snippets (audit_prompt Example.w_all_up "X") =
     PyStr.take 165000
       (labelled_transcripts 0
          (map (transcript_text Example.w_all_up)
               (firstn 3 ["https://www.screener.in/company/X/concalls/123/"]))).
Proof.
  split; [reflexivity|].
  apply (proj1 (proj2 (proj2 (proj2 (proj2 (proj2 (proj2 (proj2
           (transcript_segment_capped Example.w_all_up
              ["https://www.screener.in/company/X/concalls/123/"]))))))))
           "X" 1 gemini_model (audit_prompt Example.w_all_up "X")).
  - reflexivity.
  - vm_compute. do 20 right. left. reflexivity.
Defined.

(** ** Further properties of the handler *)

Lemma first_attempt_made (p : prompt) (k : nat) :
  1 <= k -> In (GenerateContent 1 gemini_model p) (attempts_from p 1 k).
Proof.
  destruct k as [|[|k]]; [lia | |]; intros _; now left.
Qed.

Lemma downloads_none (t : trace) :
  Forall (fun e => is_document_event e = false) t -> downloads t = [].
Proof.
  induction 1 as [|e l He _ IH]; [reflexivity|].
  destruct e; try exact IH; try discriminate.
  cbn [downloads flat_map]. cbn [is_document_event] in He.
  destruct (dict_get "Accept" headers); [discriminate | exact IH].
Qed.

Lemma synthesize_no_documents (w : World) (p : prompt) :
  Forall (fun e => is_document_event e = false) (events (synthesize w p)).
Proof.
  unfold synthesize.
  rewrite try_except_result_events, bind_result_events, generate_analysis_cases.
  destruct (generate_content w 1 gemini_model p); [repeat constructor|].
  destruct (generate_content w 2 gemini_model p); [repeat constructor|].
  destruct (generate_content w 3 gemini_model p); repeat constructor.
Qed.

(** X1. A page whose extracted text is not empty is labelled and returned
    even when that text is whitespace only: as soon as one of the pages read
    yields a non-empty text, the result is the labelled text and not the
    sentinel.  A document whose single page yields one space comes back as
    the marker of page 1 followed by that space. *)
Theorem whitespace_page_is_labelled
    (w : World) (url : string) (r : response) (pages : list (outcome string))
    (texts : list string) :
  requests_get w url document_headers 15 = Ok r ->
  raise_for_status url r = Ok tt ->
  PdfReader w (content r) = Ok pages ->
  firstn 10 pages = map Ok texts ->
  Exists (fun t => PyStr.nonempty t = true) texts ->
  result (read_transcript w url) = Ok (labelled_pages 0 texts)
  /\ result (read_transcript w url) <> Ok "[Scanned PDF/No Text]"
  /\ result (read_transcript Example.w_space_page "u") =
     Ok (nl ++ "--- PAGE 1 ---" ++ nl ++ " ").
Proof.
  intros Hget Hstatus Hpdf Hten Hex.
  destruct (read_transcript_pages w url r pages texts Hget Hstatus Hpdf Hten) as [_ Hrun].
  destruct (labelled_pages_cases texts 0) as [[Hall _]|[_ Hm]].
  { exfalso. apply Exists_exists in Hex. destruct Hex as [t [Hin Hne]].
    rewrite Forall_forall in Hall. rewrite (Hall t Hin) in Hne. discriminate. }
  assert (Hb : blank (labelled_pages 0 texts) = false).
  { unfold blank. now rewrite (strip_keeps "-" _ eq_refl Hm). }
  rewrite Hrun, Hb. cbn [result fst].
  split; [reflexivity|]. split; [|reflexivity].
  intro H. inversion H as [H']. rewrite H' in Hm. discriminate.
Qed.

Lemma whitespace_page_is_labelled_witness :
  PyStr.strip " " = ""
  /\ result (read_transcript Example.w_space_page "u") <> Ok "[Scanned PDF/No Text]".
Proof.
  split; [reflexivity|].
  apply (whitespace_page_is_labelled Example.w_space_page "u"
           (mk_response 200 "OK" [] Example.pdf_bytes) Example.space_page [" "]);
    try reflexivity.
  constructor. reflexivity.
Defined.

(** X2. With remote ratios and no transcript link the handler notes that no
    transcript was found and goes on to the generation call with an empty
    transcript segment. *)
Theorem no_links_still_synthesizes (w : World) (ticker : string) :
  PyStr.nonempty ticker = true ->
  truthy (remote_ratios w ticker) = true ->
  remote_links w ticker = Some [] ->
  p_snippets (audit_prompt w ticker) = ""
  /\ downloads (events (start_deep_research w ticker)) = []
  /\ In (StatusWrite "No transcripts found. Proceeding with Ratio analysis only.")
        (events (start_deep_research w ticker))
  /\ In (GenerateContent 1 gemini_model (audit_prompt w ticker))
        (events (start_deep_research w ticker)).
Proof.
  intros Ht Hr Hl.
  rewrite (start_deep_research_run w ticker Ht), Hr. cbn [events snd].
  unfold audit_prompt at 1, all_transcripts_text. rewrite Hl. cbn [p_snippets].
  split; [reflexivity|].
  destruct (synthesize_events w (audit_prompt w ticker)) as [tail [Hev Htail]].
  destruct (generate_analysis_trace w (audit_prompt w ticker)) as [k [Hk [Hg _]]].
  split.
  { apply downloads_none.
    constructor; [reflexivity|]. apply Forall_app. split.
    { rewrite get_company_ratios_events. repeat constructor. }
    constructor; [reflexivity|]. apply Forall_app. split.
    { eapply Forall_impl; [|apply get_financial_data_quiet].
      intros e He. now apply quiet_spec in He. }
    apply Forall_app. split.
    { cbn [collect_transcripts]. rewrite bind_emit. repeat constructor. }
    constructor; [reflexivity|]. apply synthesize_no_documents. }
  split.
  { right. apply in_or_app. right. right. apply in_or_app. right.
    apply in_or_app. left. cbn [collect_transcripts]. rewrite bind_emit. now left. }
  right. apply in_or_app. right. right. apply in_or_app. right.
  apply in_or_app. right. right. rewrite Hev, Hg. apply in_or_app. left.
  now apply first_attempt_made.
Qed.

Lemma no_links_still_synthesizes_witness :
  remote_links Example.w_no_links "X" = Some []
  /\ p_snippets (audit_prompt Example.w_no_links "X") = "".
Proof.
  split; [vm_compute; reflexivity|].
  refine (proj1 (no_links_still_synthesizes Example.w_no_links "X" _ _ _));
    vm_compute; reflexivity.
Defined.

(** X4. When an attempt of the generation call returns, the handler shows
    its text as the report: at once when the first attempt returns, and
    after one wait when the first raises and the second returns. *)
Theorem report_shown_on_success (w : World) (p : prompt) :
  (forall s, generate_content w 1 gemini_model p = Ok s ->
             synthesize w p =
             (Ok tt, [GenerateContent 1 gemini_model p;
                      StatusUpdate "Audit Complete!" "complete"; StDivider; StMarkdown s]))
  /\ (forall e s, generate_content w 1 gemini_model p = Raise e ->
                  generate_content w 2 gemini_model p = Ok s ->
                  synthesize w p =
                  (Ok tt, [GenerateContent 1 gemini_model p; Sleep 10 60 1;
                           GenerateContent 2 gemini_model p;
                           StatusUpdate "Audit Complete!" "complete"; StDivider;
                           StMarkdown s])).
Proof.
  split.
  - intros s H. unfold synthesize.
    rewrite try_except_result_events, bind_result_events, generate_analysis_cases, H.
    reflexivity.
  - intros e s H1 H2. unfold synthesize.
    rewrite try_except_result_events, bind_result_events, generate_analysis_cases, H1, H2.
    reflexivity.
Qed.

Lemma report_shown_on_success_witness :
  generate_content Example.w_all_up 1 gemini_model (audit_prompt Example.w_all_up "X") =
    Ok "# Report"
  /\ result (synthesize Example.w_all_up (audit_prompt Example.w_all_up "X")) = Ok tt.
Proof.
  split; [reflexivity|].
  rewrite (proj1 (report_shown_on_success Example.w_all_up (audit_prompt Example.w_all_up "X"))
             "# Report" eq_refl).
  reflexivity.
Defined.

(* ================================================================= *)
(** * Further properties of the stages *)

(** ** Lists of events *)

Lemma pages_read_app (a b : trace) :
  pages_read (a ++ b)%list = (pages_read a ++ pages_read b)%list.
Proof. apply flat_map_app. Qed.

Lemma requested_app (a b : trace) :
  requested (a ++ b)%list = (requested a ++ requested b)%list.
Proof. apply flat_map_app. Qed.

Lemma pages_read_none (t : trace) :
  Forall (fun e => match e with ExtractText _ => False | _ => True end) t ->
  pages_read t = [].
Proof.
  induction 1 as [|e l He _ IH]; [reflexivity|].
  destruct e; try exact IH. contradiction.
Qed.

Lemma requested_extract (l : list nat) : requested (map ExtractText l) = [].
Proof. induction l as [|i l IH]; [reflexivity | exact IH]. Qed.

Lemma transcript_stage_extract (l : list nat) :
  Forall (fun e => is_transcript_stage_event e = true) (map ExtractText l).
Proof. induction l as [|i l IH]; constructor; [reflexivity | exact IH]. Qed.

Lemma filter_pdf_open_extract (l : list nat) : filter is_pdf_open (map ExtractText l) = [].
Proof. induction l as [|i l IH]; [reflexivity | exact IH]. Qed.

Lemma firstn_seq (k a m : nat) : firstn k (seq a m) = seq a (Nat.min k m).
Proof.
  revert a m. induction k as [|k IH]; intros a [|m]; try reflexivity.
  cbn. now rewrite IH.
Qed.

(** ** One call of [read_transcript] *)

(** A call requests the document and stops there, or opens it and extracts
    the pages 0 to k-1 for some k of at most ten. *)
Lemma read_transcript_shape (w : World) (url : string) :
  events (read_transcript w url) = [HttpGet url document_headers 15]
  \/ exists c k, k <= 10
       /\ events (read_transcript w url) =
          HttpGet url document_headers 15 :: PdfOpen c :: map ExtractText (seq 0 k).
Proof.
  rewrite read_transcript_events. unfold download_and_extract. rewrite bind_call.
  destruct (requests_get w _ _ _) as [r|e]; [|now left].
  rewrite bind_lift. destruct (raise_for_status url r) as [[]|e]; [|now left].
  rewrite bind_call. destruct (PdfReader w (content r)) as [pages|e].
  2:{ right. exists (content r), 0. split; [lia | reflexivity]. }
  right. rewrite bind_result_events.
  destruct (for_pages_events pages (seq 0 (Nat.min 10 (List.length pages))) "") as [k Hk].
  rewrite firstn_seq in Hk.
  exists (content r), (Nat.min k (Nat.min 10 (List.length pages))). split; [lia|].
  destruct (result (for_pages _ _ _)); cbn [events snd].
  - change (events (ret (if PyStr.nonempty (PyStr.strip a) then a else no_text_sentinel)))
      with (@nil event).
    now rewrite app_nil_r, Hk.
  - now rewrite Hk.
Qed.

Lemma read_transcript_counts (w : World) (url : string) :
  requested (events (read_transcript w url)) = [url]
  /\ List.length (pages_read (events (read_transcript w url))) <= 10
  /\ List.length (filter is_pdf_open (events (read_transcript w url))) <= 1
  /\ Forall (fun e => is_transcript_stage_event e = true) (events (read_transcript w url)).
Proof.
  destruct (read_transcript_shape w url) as [H|[c [k [Hk H]]]]; rewrite H.
  - repeat split; cbn; try lia. repeat constructor.
  - repeat split.
    + change (requested (HttpGet url document_headers 15 :: PdfOpen c :: ?t))
        with (url :: requested t).
      now rewrite requested_extract.
    + change (pages_read (HttpGet url document_headers 15 :: PdfOpen c :: ?t))
        with (pages_read t).
      rewrite pages_read_extract, length_seq. exact Hk.
    + change (filter is_pdf_open (HttpGet url document_headers 15 :: PdfOpen c :: ?t))
        with (PdfOpen c :: filter is_pdf_open t).
      rewrite filter_pdf_open_extract. cbn. lia.
    + constructor; [reflexivity|]. constructor; [reflexivity|].
      apply transcript_stage_extract.
Qed.

(** ** One call of [get_financial_data] *)

(** The five ways a call can go: the actor call, the dataset id, the
    dataset or the page request raises, or everything returns. *)
Lemma get_financial_data_cases (w : World) (ticker : string) :
  let url := consolidated_url ticker in
  let called := ActorCall screener_actor (actor_input url) in
  let shown := fun e => StError ("Data Acquisition Error: " ++ str_exn e) in
  (exists e,
      actor_call w screener_actor (actor_input url) = Raise e
      /\ get_financial_data w ticker = (Ok (JNull, None), [called; shown e]))
  \/ (exists run e,
         actor_call w screener_actor (actor_input url) = Ok run
         /\ getitem run "defaultDatasetId" = Raise e
         /\ get_financial_data w ticker = (Ok (JNull, None), [called; shown e]))
  \/ (exists run id e,
         actor_call w screener_actor (actor_input url) = Ok run
         /\ getitem run "defaultDatasetId" = Ok id
         /\ first_item_ratios (iterate_items w id) = Raise e
         /\ get_financial_data w ticker =
            (Ok (JNull, None), [called; DatasetIterate id; shown e]))
  \/ (exists run id ratios e,
         actor_call w screener_actor (actor_input url) = Ok run
         /\ getitem run "defaultDatasetId" = Ok id
         /\ first_item_ratios (iterate_items w id) = Ok ratios
         /\ (requests_get w url page_headers 10 = Raise e
             \/ exists r, requests_get w url page_headers 10 = Ok r
                          /\ status_code r = 200%Z
                          /\ page_links (recursion_room w) r = Raise e)
         /\ get_financial_data w ticker =
            (Ok (JNull, None),
             [called; DatasetIterate id; HttpGet url page_headers 10; shown e]))
  \/ (exists run id ratios r,
         actor_call w screener_actor (actor_input url) = Ok run
         /\ getitem run "defaultDatasetId" = Ok id
         /\ first_item_ratios (iterate_items w id) = Ok ratios
         /\ requests_get w url page_headers 10 = Ok r
         /\ get_financial_data w ticker =
            (Ok (ratios,
                 Some (if (status_code r =? 200)%Z
                       then extract_transcript_links (text r) else [])),
             [called; DatasetIterate id; HttpGet url page_headers 10])).
Proof.
  intros url called shown.
  unfold get_financial_data, fetch_ratios_and_links. fold url.
  rewrite try_except_result_events, bind_result_events, bind_call.
  destruct (actor_call w screener_actor (actor_input url)) as [run|e] eqn:Ha.
  2:{ left. exists e. split; [reflexivity|]. cbn [result events fst snd].
      unfold bind, emit, ret. reflexivity. }
  right. rewrite bind_lift.
  destruct (getitem run "defaultDatasetId") as [id|e] eqn:Hg.
  2:{ left. exists run, e. repeat split; assumption || reflexivity. }
  right. rewrite bind_call.
  destruct (first_item_ratios (iterate_items w id)) as [ratios|e] eqn:Hi.
  2:{ left. exists run, id, e. repeat split; assumption || reflexivity. }
  right. rewrite bind_call.
  destruct (requests_get w url page_headers 10) as [r|e] eqn:Hr.
  2:{ left. exists run, id, ratios, e. repeat split; try assumption; try reflexivity.
      now left. }
  rewrite bind_lift.
  destruct (page_links_cases (recursion_room w) r) as [Hl|[Hs Hl]]; rewrite Hl.
  - right. exists run, id, ratios, r. repeat split; assumption || reflexivity.
  - left. exists run, id, ratios, RecursionError.
    repeat split; try assumption; try reflexivity. right. now exists r.
Qed.

Lemma get_financial_data_kind (w : World) (ticker : string) :
  Forall (fun e => is_fetch_event e = true) (events (get_financial_data w ticker))
  /\ List.length (filter is_actor_call (events (get_financial_data w ticker))) = 1
  /\ List.length (requested (events (get_financial_data w ticker))) <= 1.
Proof.
  destruct (get_financial_data_cases w ticker)
    as [[e [_ H]]|[[run [e [_ [_ H]]]]|[[run [id [e [_ [_ [_ H]]]]]]
        |[[run [id [ra [e [_ [_ [_ [_ H]]]]]]]]|[run [id [ra [r [_ [_ [_ [_ H]]]]]]]]]]]];
    rewrite H; cbn [events snd]; repeat split; cbn; try lia; repeat constructor.
Qed.

(** ** The transcript stage *)

Lemma for_links_counts (w : World) (links : list string) (i total : nat) (acc : string) :
  List.length (pages_read (events (for_links w links i total acc))) <= 10 * List.length links
  /\ Forall (fun e => is_transcript_stage_event e = true)
       (events (for_links w links i total acc)).
Proof.
  revert i acc. induction links as [|link rest IH]; intros i acc.
  - cbn. split; [lia | constructor].
  - cbn [for_links]. rewrite bind_emit, bind_result_events, read_transcript_total.
    destruct (IH (S i) (acc ++ transcript_separator i ++ transcript_text w link)) as [Hp Hk].
    destruct (read_transcript_counts w link) as [_ [Hp1 [_ Hk1]]].
    cbn [result events fst snd]. unfold events in *. split.
    + change (pages_read (StatusWrite ?s :: ?t)) with (pages_read t).
      rewrite pages_read_app, List.length_app. cbn [List.length]. lia.
    + constructor; [reflexivity|]. apply Forall_app. now split.
Qed.

Lemma collect_transcripts_counts (w : World) (links : option (list string)) :
  List.length (downloads (events (collect_transcripts w links))) <= 3
  /\ List.length (pages_read (events (collect_transcripts w links))) <= 30
  /\ Forall (fun e => is_transcript_stage_event e = true)
       (events (collect_transcripts w links)).
Proof.
  destruct links as [[|l ls]|];
    try solve [cbn; repeat split; try lia; repeat constructor].
  assert (Hlen : List.length (firstn 3 (l :: ls)) <= 3) by (rewrite length_firstn; lia).
  destruct (collect_transcripts_run w (l :: ls)) as [_ [Hd _]].
  rewrite Hd. split; [exact Hlen|].
  unfold collect_transcripts.
  destruct (for_links_counts w (firstn 3 (l :: ls)) 0
              (List.length (firstn 3 (l :: ls))) "") as [Hp Hk].
  split; [lia | exact Hk].
Qed.

(** ** The synthesis *)

Lemma attempts_from_counts (p : prompt) (k attempt : nat) :
  List.length (filter is_attempt (attempts_from p attempt k)) = k
  /\ List.length (filter is_wait (attempts_from p attempt k)) = k - 1
  /\ Forall (fun e => is_synthesis_event e = true) (attempts_from p attempt k)
  /\ filter is_report (attempts_from p attempt k) = [].
Proof.
  revert attempt. induction k as [|k IH]; intro attempt.
  - repeat split. constructor.
  - destruct k as [|k].
    + repeat split. repeat constructor.
    + destruct (IH (S attempt)) as [Ha [Hw [Hs Hr]]].
      change (attempts_from p attempt (S (S k)))
        with (GenerateContent attempt gemini_model p :: Sleep 10 60 attempt
              :: attempts_from p (S attempt) (S k)).
      cbn [filter is_attempt is_wait is_report List.length].
      rewrite Ha, Hw, Hr. repeat split; try lia.
      constructor; [reflexivity|]. constructor; [reflexivity | exact Hs].
Qed.

(** The synthesis ends with the report of the first attempt that returned,
    or after three failed attempts with the error. *)
Lemma synthesize_cases (w : World) (p : prompt) :
  (exists k s,
      1 <= k <= 3
      /\ generate_content w k gemini_model p = Ok s
      /\ synthesize w p =
         (Ok tt, (attempts_from p 1 k
                  ++ [StatusUpdate "Audit Complete!" "complete"; StDivider; StMarkdown s])%list))
  \/ (exists e,
         generate_content w 3 gemini_model p = Raise e
         /\ synthesize w p =
            (Ok tt, (attempts_from p 1 3
                     ++ [StError (" Error:  " ++ str_exn (RetryError e))])%list)).
Proof.
  unfold synthesize.
  rewrite try_except_result_events, bind_result_events, generate_analysis_cases.
  destruct (generate_content w 1 gemini_model p) as [s|e1] eqn:H1.
  { left. exists 1, s. repeat split; try lia; assumption. }
  destruct (generate_content w 2 gemini_model p) as [s|e2] eqn:H2.
  { left. exists 2, s. repeat split; try lia; assumption. }
  destruct (generate_content w 3 gemini_model p) as [s|e3] eqn:H3.
  { left. exists 3, s. repeat split; try lia; assumption. }
  right. exists e3. split; reflexivity.
Qed.

(** ** The handler as a whole *)

Lemma fetch_event_facts (e : event) :
  is_fetch_event e = true ->
  is_report e = false /\ is_attempt e = false /\ is_wait e = false
  /\ is_document_event e = false /\ is_pdf_open e = false
  /\ match e with ExtractText _ => False | _ => True end.
Proof.
  destruct e; cbn; try discriminate; try (intros _; repeat split; reflexivity).
  destruct (dict_get "Accept" headers); [discriminate | now repeat split].
Qed.

Lemma transcript_stage_event_facts (e : event) :
  is_transcript_stage_event e = true ->
  is_report e = false /\ is_attempt e = false /\ is_wait e = false
  /\ is_actor_call e = false /\ is_fetch_event e = false \/ exists s, e = StatusWrite s.
Proof.
  destruct e; cbn; try discriminate; try (intros _; left; repeat split; reflexivity).
  destruct (dict_get "Accept" headers); [intros _; left; now repeat split | discriminate].
Qed.

Lemma transcript_stage_no (p : event -> bool) (t : trace) :
  (forall s, p (StatusWrite s) = false) ->
  (forall e, is_transcript_stage_event e = true -> (exists s, e = StatusWrite s) \/ p e = false) ->
  Forall (fun e => is_transcript_stage_event e = true) t ->
  filter p t = [].
Proof.
  intros Hs Hp H. apply filter_none. eapply Forall_impl; [|exact H].
  intros e He. destruct (Hp e He) as [[s ->]|Hf]; [apply Hs | exact Hf].
Qed.

Lemma collect_transcripts_filters (w : World) (links : option (list string)) :
  filter is_report (events (collect_transcripts w links)) = []
  /\ filter is_attempt (events (collect_transcripts w links)) = []
  /\ filter is_wait (events (collect_transcripts w links)) = []
  /\ filter is_actor_call (events (collect_transcripts w links)) = [].
Proof.
  destruct (collect_transcripts_counts w links) as [_ [_ Hk]].
  repeat split; apply (transcript_stage_no _ _ (fun _ => eq_refl)); try exact Hk;
    intros e He; destruct (transcript_stage_event_facts e He) as [[H1 [H2 [H3 [H4 _]]]]|Hs];
    (right; assumption) || (left; exact Hs).
Qed.

Lemma get_financial_data_filters (w : World) (ticker : string) :
  filter is_report (events (get_financial_data w ticker)) = []
  /\ filter is_attempt (events (get_financial_data w ticker)) = []
  /\ filter is_wait (events (get_financial_data w ticker)) = []
  /\ downloads (events (get_financial_data w ticker)) = []
  /\ pages_read (events (get_financial_data w ticker)) = [].
Proof.
  destruct (get_financial_data_kind w ticker) as [Hk _].
  repeat split; try apply filter_none; try apply downloads_none; try apply pages_read_none;
    (eapply Forall_impl; [|exact Hk]); intros e He;
    destruct (fetch_event_facts e He) as [H1 [H2 [H3 [H4 [H5 H6]]]]]; assumption.
Qed.

Lemma synthesize_total (w : World) (p : prompt) : result (synthesize w p) = Ok tt.
Proof.
  destruct (synthesize_cases w p) as [[k [s [_ [_ H]]]]|[e [_ H]]]; now rewrite H.
Qed.

(** The events of a run that reaches the transcript stage, and the report
    events among them. *)
Lemma run_reports (w : World) (ticker : string) (syn : trace) :
  filter is_report
    (StatusWrite msg_scraping :: events (get_company_ratios w ticker)
     ++ StatusWrite msg_gathering :: events (get_financial_data w ticker)
     ++ events (collect_transcripts w (remote_links w ticker))
     ++ StatusWrite msg_analysing :: syn)%list
  = filter is_report syn.
Proof.
  cbn [filter is_report]. rewrite filter_app, get_company_ratios_events.
  cbn [filter is_report app]. rewrite filter_app.
  rewrite (proj1 (get_financial_data_filters w ticker)). cbn [app].
  rewrite filter_app, (proj1 (collect_transcripts_filters w _)). reflexivity.
Qed.

(** X3. The handler never lets an exception escape, and every run ends in
    exactly one of four ways: with the warning alone when the ticker is
    empty; with "Failed to fetch financial data." and a stop when the remote
    ratios are missing; with the text of the first attempt that returned,
    shown once as the report; or, after three failed attempts, with the
    error of the generation call and no report. *)
Theorem handler_outcomes (w : World) (ticker : string) :
  result (start_deep_research w ticker) = Ok tt
  /\ ((ticker = ""
       /\ events (start_deep_research w ticker) = [StWarning "Please enter a ticker."])
      \/ (ticker <> ""
          /\ truthy (remote_ratios w ticker) = false
          /\ (exists pre, events (start_deep_research w ticker) =
                          (pre ++ [StError "Failed to fetch financial data."; StStop])%list)
          /\ filter is_report (events (start_deep_research w ticker)) = [])
      \/ (ticker <> ""
          /\ truthy (remote_ratios w ticker) = true
          /\ exists k s,
               1 <= k <= 3
               /\ generate_content w k gemini_model (audit_prompt w ticker) = Ok s
               /\ (exists pre, events (start_deep_research w ticker) =
                     (pre ++ [StatusUpdate "Audit Complete!" "complete"; StDivider;
                              StMarkdown s])%list)
               /\ filter is_report (events (start_deep_research w ticker)) = [StMarkdown s])
      \/ (ticker <> ""
          /\ truthy (remote_ratios w ticker) = true
          /\ exists e,
               generate_content w 3 gemini_model (audit_prompt w ticker) = Raise e
               /\ (exists pre, events (start_deep_research w ticker) =
                     (pre ++ [StError (" Error:  " ++ str_exn (RetryError e))])%list)
               /\ filter is_report (events (start_deep_research w ticker)) = [])).
Proof.
  destruct ticker as [|c t].
  { split; [reflexivity|]. left. split; reflexivity. }
  assert (Hne : String c t <> "") by discriminate.
  rewrite (start_deep_research_run w (String c t) eq_refl).
  destruct (truthy (remote_ratios w (String c t))) eqn:Hr; cbn [result events fst snd].
  - split; [apply synthesize_total|]. right. right.
    destruct (synthesize_cases w (audit_prompt w (String c t)))
      as [[k [s [Hk [Hs H]]]]|[e [He H]]]; rewrite H; cbn [events snd].
    + left. split; [exact Hne|]. split; [reflexivity|].
      exists k, s. split; [exact Hk|]. split; [exact Hs|]. split.
      * eexists. rewrite !app_comm_cons, !app_assoc. reflexivity.
      * rewrite run_reports, filter_app.
        now rewrite (proj2 (proj2 (proj2 (attempts_from_counts (audit_prompt w (String c t)) k 1)))).
    + right. split; [exact Hne|]. split; [reflexivity|].
      exists e. split; [exact He|]. split.
      * eexists. rewrite !app_comm_cons, !app_assoc. reflexivity.
      * rewrite run_reports, filter_app.
        now rewrite (proj2 (proj2 (proj2 (attempts_from_counts (audit_prompt w (String c t)) 3 1)))).
  - split; [reflexivity|]. right. left.
    split; [exact Hne|]. split; [reflexivity|]. split.
    + eexists. rewrite !app_comm_cons, !app_assoc. reflexivity.
    + cbn [filter is_report]. rewrite filter_app, get_company_ratios_events.
      cbn [filter is_report app]. rewrite filter_app.
      now rewrite (proj1 (get_financial_data_filters w _)).
Qed.

Lemma flat_map_none {A B : Type} (g : A -> list B) (l : list A) :
  Forall (fun x => g x = []) l -> flat_map g l = [].
Proof.
  induction 1 as [|x l Hx _ IH]; [reflexivity|]. cbn [flat_map]. now rewrite Hx, IH.
Qed.

Lemma synthesize_kind (w : World) (p : prompt) :
  Forall (fun e => is_synthesis_event e = true) (events (synthesize w p))
  /\ 1 <= List.length (filter is_attempt (events (synthesize w p))) <= 3
  /\ List.length (filter is_wait (events (synthesize w p))) <= 2.
Proof.
  destruct (synthesize_cases w p) as [[k [s [Hk [_ H]]]]|[e [_ H]]]; rewrite H;
    cbn [events snd]; rewrite !filter_app, !List.length_app.
  - destruct (attempts_from_counts p k 1) as [Ha [Hw [Hs _]]]. rewrite Ha, Hw.
    split; [|cbn; lia]. apply Forall_app. split; [exact Hs | repeat constructor].
  - destruct (attempts_from_counts p 3 1) as [Ha [Hw [Hs _]]]. rewrite Ha, Hw.
    split; [|cbn; lia]. apply Forall_app. split; [exact Hs | repeat constructor].
Qed.

Lemma synthesis_trace_facts (t : trace) :
  Forall (fun e => is_synthesis_event e = true) t ->
  downloads t = [] /\ pages_read t = [] /\ requested t = []
  /\ filter is_actor_call t = [].
Proof.
  intro H. repeat split; try apply flat_map_none; try apply filter_none;
    (eapply Forall_impl; [|exact H]); intros e He; destruct e; try reflexivity;
    discriminate He.
Qed.

Lemma fetch_trace_requested (w : World) (links : option (list string)) :
  requested (events (collect_transcripts w links))
  = downloads (events (collect_transcripts w links)).
Proof.
  destruct (collect_transcripts_counts w links) as [_ [_ Hk]].
  induction Hk as [|e l He _ IH]; [reflexivity|].
  destruct e; try discriminate He; try exact IH.
  cbn [requested downloads flat_map]. cbn in He.
  destruct (dict_get "Accept" headers); [|discriminate He].
  cbn [app]. f_equal. exact IH.
Qed.

(** X5. One request stays within fixed bounds whatever the outside world
    answers: at most three transcript documents are requested and at most
    thirty pages extracted, the generation service is called at most three
    times with at most two waits, the actor is called at most once, and at
    most five HTTP requests are made in all. *)
Theorem request_bounds (w : World) (ticker : string) :
  List.length (downloads (events (start_deep_research w ticker))) <= 3
  /\ List.length (pages_read (events (start_deep_research w ticker))) <= 30
  /\ List.length (filter is_attempt (events (start_deep_research w ticker))) <= 3
  /\ List.length (filter is_wait (events (start_deep_research w ticker))) <= 2
  /\ List.length (filter is_actor_call (events (start_deep_research w ticker))) <= 1
  /\ List.length (requested (events (start_deep_research w ticker))) <= 5.
Proof.
  destruct ticker as [|c t]; [cbn; repeat split; lia|].
  rewrite (start_deep_research_run w (String c t) eq_refl).
  set (tk := String c t).
  destruct (get_financial_data_filters w tk) as [_ [Hfa [Hfw [Hfd Hfp]]]].
  destruct (get_financial_data_kind w tk) as [_ [Hfc Hfr]].
  destruct (truthy (remote_ratios w tk)); cbn [events snd].
  - destruct (collect_transcripts_counts w (remote_links w tk)) as [Hcd [Hcp _]].
    destruct (collect_transcripts_filters w (remote_links w tk)) as [_ [Hca [Hcw Hcc]]].
    pose proof (fetch_trace_requested w (remote_links w tk)) as Hcr.
    destruct (synthesize_kind w (audit_prompt w tk)) as [Hsk [Hsa Hsw]].
    destruct (synthesis_trace_facts _ Hsk) as [Hsd [Hsp [Hsr Hsc]]].
    repeat split.
    + change (downloads (StatusWrite ?s :: ?l)) with (downloads l).
      rewrite downloads_app, get_company_ratios_events.
      change (downloads [HttpGet ?u profile_headers 10]) with (@nil string).
      cbn [app]. change (downloads (StatusWrite ?s :: ?l)) with (downloads l).
      rewrite !downloads_app, Hfd.
      change (downloads (StatusWrite ?s :: ?l)) with (downloads l).
      rewrite Hsd, app_nil_r. exact Hcd.
    + change (pages_read (StatusWrite ?s :: ?l)) with (pages_read l).
      rewrite pages_read_app, get_company_ratios_events.
      change (pages_read [HttpGet ?u profile_headers 10]) with (@nil nat).
      cbn [app]. change (pages_read (StatusWrite ?s :: ?l)) with (pages_read l).
      rewrite !pages_read_app, Hfp.
      change (pages_read (StatusWrite ?s :: ?l)) with (pages_read l).
      rewrite Hsp, app_nil_r. exact Hcp.
    + cbn [filter is_attempt]. rewrite filter_app, get_company_ratios_events.
      cbn [filter is_attempt app]. rewrite !filter_app, Hfa, Hca.
      cbn [filter is_attempt app]. lia.
    + cbn [filter is_wait]. rewrite filter_app, get_company_ratios_events.
      cbn [filter is_wait app]. rewrite !filter_app, Hfw, Hcw.
      cbn [filter is_wait app]. lia.
    + cbn [filter is_actor_call]. rewrite filter_app, get_company_ratios_events.
      cbn [filter is_actor_call app]. rewrite !filter_app, Hcc.
      cbn [filter is_actor_call app]. rewrite Hsc, app_nil_r. lia.
    + change (requested (StatusWrite ?s :: ?l)) with (requested l).
      rewrite requested_app, get_company_ratios_events.
      change (requested [HttpGet ?u profile_headers 10]) with [u].
      cbn [app]. change (requested (StatusWrite ?s :: ?l)) with (requested l).
      rewrite !requested_app.
      change (requested (StatusWrite ?s :: ?l)) with (requested l).
      rewrite Hsr, app_nil_r, Hcr. cbn [List.length]. rewrite List.length_app. lia.
  - repeat split.
    + change (downloads (StatusWrite ?s :: ?l)) with (downloads l).
      rewrite downloads_app, get_company_ratios_events.
      change (downloads [HttpGet ?u profile_headers 10]) with (@nil string).
      cbn [app]. change (downloads (StatusWrite ?s :: ?l)) with (downloads l).
      rewrite downloads_app, Hfd. cbn. lia.
    + change (pages_read (StatusWrite ?s :: ?l)) with (pages_read l).
      rewrite pages_read_app, get_company_ratios_events.
      change (pages_read [HttpGet ?u profile_headers 10]) with (@nil nat).
      cbn [app]. change (pages_read (StatusWrite ?s :: ?l)) with (pages_read l).
      rewrite pages_read_app, Hfp. cbn. lia.
    + cbn [filter is_attempt]. rewrite filter_app, get_company_ratios_events.
      cbn [filter is_attempt app]. rewrite filter_app, Hfa. cbn. lia.
    + cbn [filter is_wait]. rewrite filter_app, get_company_ratios_events.
      cbn [filter is_wait app]. rewrite filter_app, Hfw. cbn. lia.
    + cbn [filter is_actor_call]. rewrite filter_app, get_company_ratios_events.
      cbn [filter is_actor_call app]. rewrite filter_app, List.length_app. cbn. lia.
    + change (requested (StatusWrite ?s :: ?l)) with (requested l).
      rewrite requested_app, get_company_ratios_events.
      change (requested [HttpGet ?u profile_headers 10]) with [u].
      cbn [app]. change (requested (StatusWrite ?s :: ?l)) with (requested l).
      rewrite requested_app. cbn [List.length]. rewrite List.length_app. cbn. lia.
Qed.

Lemma attempts_from_member (p : prompt) (k attempt n : nat) (model : string) (q : prompt) :
  In (GenerateContent n model q) (attempts_from p attempt k) ->
  q = p /\ model = gemini_model /\ attempt <= n < attempt + k.
Proof.
  revert attempt. induction k as [|k IH]; intros attempt H; [contradiction|].
  destruct k as [|k].
  - destruct H as [H|[]]. inversion H. subst. repeat split; lia.
  - destruct H as [H|[H|H]].
    + inversion H. subst. repeat split; lia.
    + discriminate.
    + destruct (IH (S attempt) H) as [Hq [Hm Hn]]. repeat split; try assumption; lia.
Qed.

Lemma quiet_fetch_part (w : World) (ticker : string) :
  Forall (fun e => quiet e = true)
    (StatusWrite msg_scraping :: events (get_company_ratios w ticker)
     ++ StatusWrite msg_gathering :: events (get_financial_data w ticker))%list.
Proof.
  constructor; [reflexivity|]. apply Forall_app. split.
  - rewrite get_company_ratios_events. repeat constructor.
  - constructor; [reflexivity|]. apply get_financial_data_quiet.
Qed.

(** X6. The stages of a request never interleave: its events are those of
    the two ratio fetches, followed by those of the transcript stage,
    followed by those of the synthesis.  Once a transcript is requested the
    actor and the ratio pages are not touched again, and once the
    generation service is called no document is requested or read. *)
Theorem stages_in_order (w : World) (ticker : string) :
  exists fetching transcripts synthesis,
    events (start_deep_research w ticker) = (fetching ++ transcripts ++ synthesis)%list
    /\ Forall (fun e => is_document_event e = false /\ is_generation_event e = false)
         fetching
    /\ Forall (fun e => is_transcript_stage_event e = true) transcripts
    /\ Forall (fun e => is_synthesis_event e = true) synthesis.
Proof.
  destruct ticker as [|c t].
  { exists [StWarning "Please enter a ticker."], [], []. repeat split; repeat constructor. }
  rewrite (start_deep_research_run w (String c t) eq_refl).
  set (tk := String c t).
  assert (Hq : Forall (fun e => is_document_event e = false /\ is_generation_event e = false)
                 (StatusWrite msg_scraping :: events (get_company_ratios w tk)
                  ++ StatusWrite msg_gathering :: events (get_financial_data w tk))%list).
  { eapply Forall_impl; [|apply quiet_fetch_part]. intros e He. now apply quiet_spec. }
  destruct (truthy (remote_ratios w tk)); cbn [events snd].
  - exists (StatusWrite msg_scraping :: events (get_company_ratios w tk)
            ++ StatusWrite msg_gathering :: events (get_financial_data w tk))%list,
           (events (collect_transcripts w (remote_links w tk))
            ++ [StatusWrite msg_analysing])%list,
           (events (synthesize w (audit_prompt w tk))).
    split; [|split; [exact Hq|split]].
    + cbn [app]. rewrite <- !app_assoc. cbn [app]. reflexivity.
    + apply Forall_app. split; [apply collect_transcripts_counts | repeat constructor].
    + apply synthesize_kind.
  - exists (StatusWrite msg_scraping :: events (get_company_ratios w tk)
            ++ StatusWrite msg_gathering :: events (get_financial_data w tk)
            ++ [StError msg_no_data; StStop])%list, [], [].
    split; [|split; [|split; constructor]].
    + now rewrite !app_nil_r.
    + eapply Forall_impl; [|apply halted_run_quiet]. intros e He. now apply quiet_spec.
Qed.

(** Where a call of the generation service in a run comes from. *)
Lemma generation_event_origin (w : World) (ticker : string)
    (attempt : nat) (model : string) (p : prompt) :
  In (GenerateContent attempt model p) (events (start_deep_research w ticker)) ->
  ticker <> ""
  /\ truthy (remote_ratios w ticker) = true
  /\ In (GenerateContent attempt model p)
        (events (generate_analysis w (audit_prompt w ticker))).
Proof.
  destruct ticker as [|c t].
  { cbn. intros [H|[]]. discriminate. }
  rewrite (start_deep_research_run w (String c t) eq_refl).
  set (tk := String c t).
  assert (Hno : forall l, Forall (fun e => is_generation_event e = false) l ->
                          ~ In (GenerateContent attempt model p) l).
  { intros l Hf Hi. rewrite Forall_forall in Hf. specialize (Hf _ Hi). discriminate. }
  destruct (truthy (remote_ratios w tk)); cbn [events snd]; intro Hin.
  - split; [discriminate|]. split; [reflexivity|].
    destruct Hin as [Hin|Hin]; [discriminate|].
    apply in_app_or in Hin. destruct Hin as [Hin|Hin].
    { rewrite get_company_ratios_events in Hin. destruct Hin as [Hin|[]]. discriminate. }
    destruct Hin as [Hin|Hin]; [discriminate|].
    apply in_app_or in Hin. destruct Hin as [Hin|Hin].
    { exfalso. revert Hin. apply Hno.
      eapply Forall_impl; [|apply get_financial_data_quiet].
      intros e He. now apply quiet_spec in He. }
    apply in_app_or in Hin. destruct Hin as [Hin|Hin].
    { exfalso. revert Hin. apply Hno. apply collect_transcripts_total. }
    destruct Hin as [Hin|Hin]; [discriminate|].
    destruct (synthesize_events w (audit_prompt w tk)) as [tail [Hev Htail]].
    rewrite Hev in Hin. apply in_app_or in Hin. destruct Hin as [Hin|Hin]; [exact Hin|].
    exfalso. rewrite Forall_forall in Htail. specialize (Htail _ Hin). discriminate.
  - exfalso. pose proof (halted_run_quiet w tk) as Hq.
    rewrite Forall_forall in Hq. specialize (Hq _ Hin). discriminate.
Qed.

(** X7. A call of the generation service is made only for a non-empty
    ticker with remote ratios present; it is one of the attempts 1 to 3, it
    names the model gemini-2.5-flash, and its prompt carries the ticker, the
    local ratios and the remote ratios as the two fetches returned them,
    side by side and unmerged, with the capped transcript text. *)
Theorem generation_requires_ratios (w : World) (ticker : string)
    (attempt : nat) (model : string) (p : prompt) :
  In (GenerateContent attempt model p) (events (start_deep_research w ticker)) ->
  ticker <> ""
  /\ truthy (remote_ratios w ticker) = true
  /\ 1 <= attempt <= 3
  /\ model = "gemini-2.5-flash"
  /\ p_ticker p = ticker
  /\ p_main_ratios p = local_ratios w ticker
  /\ p_ratios p = remote_ratios w ticker
  /\ p_snippets p = PyStr.take 165000 (all_transcripts_text w ticker).
Proof.
  intro Hin. destruct (generation_event_origin w ticker attempt model p Hin) as [Ht [Hr Hg]].
  destruct (generate_analysis_trace w (audit_prompt w ticker)) as [k [Hk [Hev _]]].
  rewrite Hev in Hg. apply attempts_from_member in Hg. destruct Hg as [-> [-> Hn]].
  repeat split; try assumption; try reflexivity; lia.
Qed.

Lemma generation_requires_ratios_witness :
  In (GenerateContent 1 gemini_model (audit_prompt Example.w_all_up "X"))
     (events (start_deep_research Example.w_all_up "X"))
  /\ truthy (remote_ratios Example.w_all_up "X") = true.
Proof.
  assert (H : In (GenerateContent 1 gemini_model (audit_prompt Example.w_all_up "X"))
                 (events (start_deep_research Example.w_all_up "X"))).
  { vm_compute. do 20 right. left. reflexivity. }
  split; [exact H|].
  exact (proj1 (proj2 (generation_requires_ratios Example.w_all_up "X" 1 gemini_model
                         (audit_prompt Example.w_all_up "X") H))).
Defined.

(** ** Degraded data *)

Lemma actor_call_first (w : World) (ticker : string) :
  exists rest,
    events (get_financial_data w ticker) =
    ActorCall screener_actor (actor_input (consolidated_url ticker)) :: rest.
Proof.
  destruct (get_financial_data_cases w ticker)
    as [[e [_ H]]|[[run [e [_ [_ H]]]]|[[run [id [e [_ [_ [_ H]]]]]]
        |[[run [id [ra [e [_ [_ [_ [_ H]]]]]]]]|[run [id [ra [r [_ [_ [_ [_ H]]]]]]]]]]]];
    rewrite H; eexists; reflexivity.
Qed.

(** X8. A failure of the local ratio fetch does not stop a request: when the
    profile page cannot be fetched or is not served with status 200, the
    local RatioSet is empty, the actor is called all the same, and with
    remote ratios present the generation service receives a prompt whose
    local ratios are empty. *)
Theorem local_failure_continues (w : World) (ticker : string) :
  ticker <> "" ->
  (forall r, requests_get w (profile_url ticker) profile_headers 10 = Ok r ->
             status_code r <> 200%Z) ->
  local_ratios w ticker = []
  /\ In (ActorCall screener_actor (actor_input (consolidated_url ticker)))
        (events (start_deep_research w ticker))
  /\ (truthy (remote_ratios w ticker) = true ->
      In (GenerateContent 1 gemini_model
            (mk_prompt ticker [] (remote_ratios w ticker)
                       (PyStr.take 165000 (all_transcripts_text w ticker))))
         (events (start_deep_research w ticker))).
Proof.
  intros Ht Hp.
  assert (Hl : local_ratios w ticker = []).
  { unfold local_ratios, get_company_ratios.
    rewrite try_except_result_events, bind_call.
    destruct (requests_get w (profile_url ticker) profile_headers 10) as [r|e] eqn:Hr;
      [|reflexivity].
    cbn [result fst].
    destruct (Z.eqb_spec (status_code r) 200) as [E|_]; [|reflexivity].
    now destruct (Hp r eq_refl). }
  assert (Hne : PyStr.nonempty ticker = true) by (destruct ticker; [contradiction | reflexivity]).
  rewrite (start_deep_research_run w ticker Hne).
  destruct (actor_call_first w ticker) as [rest Hrest].
  split; [exact Hl|]. split.
  - destruct (truthy (remote_ratios w ticker)); cbn [events snd];
      right; apply in_or_app; right; right; rewrite Hrest; now left.
  - intros Hr. rewrite Hr. cbn [events snd].
    right. apply in_or_app. right. right. apply in_or_app. right.
    apply in_or_app. right. right.
    destruct (synthesize_events w (audit_prompt w ticker)) as [tail [Hev _]].
    destruct (generate_analysis_trace w (audit_prompt w ticker)) as [k [Hk [Hg _]]].
    rewrite Hev, Hg. apply in_or_app. left.
    replace (mk_prompt ticker [] (remote_ratios w ticker)
               (PyStr.take 165000 (all_transcripts_text w ticker)))
      with (audit_prompt w ticker) by (unfold audit_prompt; now rewrite Hl).
    apply first_attempt_made. lia.
Qed.

Lemma local_failure_continues_witness :
  requests_get Example.w_profile_down (profile_url "X") profile_headers 10 =
    Raise Example.connection_error
  /\ local_ratios Example.w_profile_down "X" = [].
Proof.
  split; [reflexivity|].
  refine (proj1 (local_failure_continues Example.w_profile_down "X" _ _)).
  - discriminate.
  - intros r H. vm_compute in H. discriminate H.
Defined.

(** X9. [get_financial_data] never raises and returns one of two shapes:
    ratios together with a list of links, or (None, None).  It is (None,
    None) exactly when a step of the combined fetch raised, which is exactly
    when it showed an error; the actor is called exactly once and at most
    one page is requested. *)
Theorem fetch_result_shape (w : World) (ticker : string) :
  result (get_financial_data w ticker) = Ok (remote_ratios w ticker, remote_links w ticker)
  /\ (remote_links w ticker = None <->
      exists e, result (fetch_ratios_and_links w ticker) = Raise e)
  /\ (remote_links w ticker = None -> remote_ratios w ticker = JNull)
  /\ (remote_links w ticker = None <->
      exists msg, In (StError msg) (events (get_financial_data w ticker)))
  /\ List.length (filter is_actor_call (events (get_financial_data w ticker))) = 1
  /\ List.length (requested (events (get_financial_data w ticker))) <= 1.
Proof.
  split; [apply get_financial_data_total|].
  assert (Hbody : remote_links w ticker = None <->
                  exists e, result (fetch_ratios_and_links w ticker) = Raise e).
  { unfold remote_links, get_financial_data.
    rewrite try_except_result_events, bind_result_events.
    destruct (result (fetch_ratios_and_links w ticker)) as [rl|e]; cbn [result fst snd].
    - split; [discriminate | intros [e He]; discriminate He].
    - split; [intros _; now exists e | reflexivity]. }
  split; [exact Hbody|]. split.
  { intro Hn. apply Hbody in Hn. destruct Hn as [e He].
    unfold remote_ratios. now rewrite (get_financial_data_caught w ticker e He). }
  split; [|split; apply get_financial_data_kind].
  unfold remote_links.
  destruct (get_financial_data_cases w ticker)
    as [[e [_ H]]|[[run [e [_ [_ H]]]]|[[run [id [e [_ [_ [_ H]]]]]]
        |[[run [id [ra [e [_ [_ [_ [_ H]]]]]]]]|[run [id [ra [r [_ [_ [_ [_ H]]]]]]]]]]]];
    rewrite H; cbn [result events fst snd]; split; try reflexivity; try discriminate;
    try (intros _; eexists; cbn; tauto).
  intros [msg Hin]. cbn in Hin. repeat (destruct Hin as [Hin|Hin]; try discriminate Hin).
  contradiction.
Qed.

(** X10. The combined fetch stops at its first failing step.  When the actor
    call raises, or its run has no "defaultDatasetId" (a KeyError), or
    reading the dataset raises, the page with the transcript links is never
    requested; when the actor call raises the dataset is not read either.
    In each case the error is shown and (None, None) returned. *)
Theorem fetch_stops_at_first_failure (w : World) (ticker : string) :
  (forall e,
      actor_call w screener_actor (actor_input (consolidated_url ticker)) = Raise e ->
      get_financial_data w ticker =
      (Ok (JNull, None),
       [ActorCall screener_actor (actor_input (consolidated_url ticker));
        StError ("Data Acquisition Error: " ++ str_exn e)]))
  /\ (forall d,
         actor_call w screener_actor (actor_input (consolidated_url ticker)) = Ok (JObj d) ->
         dict_get "defaultDatasetId" d = None ->
         get_financial_data w ticker =
         (Ok (JNull, None),
          [ActorCall screener_actor (actor_input (consolidated_url ticker));
           StError "Data Acquisition Error: 'defaultDatasetId'"]))
  /\ (forall run id e,
         actor_call w screener_actor (actor_input (consolidated_url ticker)) = Ok run ->
         getitem run "defaultDatasetId" = Ok id ->
         iterate_items w id = ItemsRaise e ->
         get_financial_data w ticker =
         (Ok (JNull, None),
          [ActorCall screener_actor (actor_input (consolidated_url ticker));
           DatasetIterate id;
           StError ("Data Acquisition Error: " ++ str_exn e)])).
Proof.
  unfold get_financial_data, fetch_ratios_and_links.
  repeat split.
  - intros e Ha. now rewrite try_except_result_events, bind_result_events, bind_call, Ha.
  - intros d Ha Hd.
    rewrite try_except_result_events, bind_result_events, bind_call, Ha, bind_lift.
    cbn [getitem]. now rewrite Hd.
  - intros run id e Ha Hg Hi.
    rewrite try_except_result_events, bind_result_events, bind_call, Ha, bind_lift, Hg.
    cbn [result events fst snd]. now rewrite bind_call, Hi.
Qed.

Lemma fetch_stops_at_first_failure_witness :
  actor_call Example.w_actor_down screener_actor (actor_input (consolidated_url "X")) =
    Raise Example.actor_error
  /\ requested (events (get_financial_data Example.w_actor_down "X")) = []
  /\ events (get_financial_data Example.w_no_dataset_id "X") =
     [ActorCall screener_actor (actor_input (consolidated_url "X"));
      StError "Data Acquisition Error: 'defaultDatasetId'"].
Proof.
  split; [reflexivity|]. split.
  - rewrite (proj1 (fetch_stops_at_first_failure Example.w_actor_down "X")
               Example.actor_error eq_refl).
    reflexivity.
  - rewrite (proj1 (proj2 (fetch_stops_at_first_failure Example.w_no_dataset_id "X"))
               [("id", JStr "r1")] eq_refl eq_refl).
    reflexivity.
Defined.

(** X11. A page with the transcript links that is served with a status other
    than 200 is not an error for the combined fetch: nothing is raised or
    shown, the page is not parsed, the links are the empty list and the
    ratios of the dataset are kept. *)
Theorem links_page_status_ignored (w : World) (ticker : string) (run id ratios : json)
    (r : response) :
  actor_call w screener_actor (actor_input (consolidated_url ticker)) = Ok run ->
  getitem run "defaultDatasetId" = Ok id ->
  first_item_ratios (iterate_items w id) = Ok ratios ->
  requests_get w (consolidated_url ticker) page_headers 10 = Ok r ->
  status_code r <> 200%Z ->
  get_financial_data w ticker =
    (Ok (ratios, Some []),
     [ActorCall screener_actor (actor_input (consolidated_url ticker));
      DatasetIterate id;
      HttpGet (consolidated_url ticker) page_headers 10])
  /\ remote_ratios w ticker = ratios
  /\ remote_links w ticker = Some [].
Proof.
  intros Ha Hg Hi Hr Hs.
  assert (H : get_financial_data w ticker =
              (Ok (ratios, Some []),
               [ActorCall screener_actor (actor_input (consolidated_url ticker));
                DatasetIterate id;
                HttpGet (consolidated_url ticker) page_headers 10])).
  { unfold get_financial_data, fetch_ratios_and_links.
    rewrite try_except_result_events, bind_result_events, bind_call, Ha, bind_lift, Hg.
    cbn [result events fst snd]. rewrite bind_call, Hi. cbn [result events fst snd].
    rewrite bind_call, Hr, bind_lift. unfold page_links.
    destruct (Z.eqb_spec (status_code r) 200) as [E|_]; [contradiction | reflexivity]. }
  unfold remote_ratios, remote_links. rewrite H. now repeat split.
Qed.

Lemma links_page_status_ignored_witness :
  requests_get Example.w_links_forbidden (consolidated_url "X") page_headers 10 =
    Example.forbidden
  /\ extract_transcript_links Example.one_concall_page <> []
  /\ remote_links Example.w_links_forbidden "X" = Some [].
Proof.
  split; [reflexivity|]. split; [discriminate|].
  refine (proj2 (proj2 (links_page_status_ignored Example.w_links_forbidden "X"
            (JObj [("id", JStr "r1"); ("defaultDatasetId", JStr "d1")]) (JStr "d1")
            (JObj [("Market Cap", JStr "1,000 Cr."); ("Stock P/E", JStr "23.5")])
            (mk_response 403 "Forbidden" Example.one_concall_page [])
            _ _ _ _ _))); try reflexivity.
  discriminate.
Defined.

(** X12. The whole first item stands in for the ratios only when it has no
    "ratios" field.  When the field is there but empty or null, or the
    dataset has no item at all, what the fetch hands over counts as no
    ratios and the handler stops the request, whatever else the item holds
    and whatever links the page offers. *)
Theorem falsy_ratios_field_halts (w : World) (ticker : string) (run id v : json) :
  ticker <> "" ->
  actor_call w screener_actor (actor_input (consolidated_url ticker)) = Ok run ->
  getitem run "defaultDatasetId" = Ok id ->
  first_item_ratios (iterate_items w id) = Ok v ->
  truthy v = false ->
  truthy (remote_ratios w ticker) = false
  /\ (exists before,
        events (start_deep_research w ticker) =
        (before ++ [StError "Failed to fetch financial data."; StStop])%list)
  /\ downloads (events (start_deep_research w ticker)) = []
  /\ filter is_attempt (events (start_deep_research w ticker)) = []
  /\ (forall item rest field,
        dict_get "ratios" item = Some field ->
        first_item_ratios (ItemsCons item rest) = Ok field)
  /\ first_item_ratios ItemsEnd = Ok (JObj []).
Proof.
  intros Ht Ha Hg Hi Hv.
  assert (Hr : truthy (remote_ratios w ticker) = false).
  { unfold remote_ratios.
    destruct (get_financial_data_cases w ticker)
      as [[e [_ H]]|[[run' [e [_ [_ H]]]]|[[run' [id' [e [_ [_ [_ H]]]]]]
          |[[run' [id' [ra [e [_ [_ [_ [_ H]]]]]]]]
           |[run' [id' [ra [r [Ha' [Hg' [Hi' [_ H]]]]]]]]]]]];
      rewrite H; try reflexivity.
    cbn [result fst]. rewrite Ha in Ha'. inversion Ha'; subst run'.
    rewrite Hg in Hg'. inversion Hg'; subst id'.
    rewrite Hi in Hi'. inversion Hi'; subst ra. exact Hv. }
  assert (Hne : PyStr.nonempty ticker = true) by (destruct ticker; [contradiction | reflexivity]).
  destruct (halts_without_ratios w ticker Hne Hr) as [_ [H2 [_ [H3 H4]]]].
  split; [exact Hr|]. split; [exact H2|]. split; [exact H3|]. split; [exact H4|].
  split; [|reflexivity].
  intros item rest field Hf. cbn [first_item_ratios]. now rewrite Hf.
Qed.

Lemma falsy_ratios_field_halts_witness :
  dict_get "name" Example.item_without_ratios = Some (JStr "X Ltd")
  /\ remote_links Example.w_empty_ratios_field "X" =
     Some ["https://www.screener.in/company/X/concalls/123/"]
  /\ downloads (events (start_deep_research Example.w_empty_ratios_field "X")) = [].
Proof.
  split; [reflexivity|]. split; [vm_compute; reflexivity|].
  refine (proj1 (proj2 (proj2 (falsy_ratios_field_halts Example.w_empty_ratios_field "X"
            (JObj [("id", JStr "r1"); ("defaultDatasetId", JStr "d1")]) (JStr "d1")
            (JObj []) _ _ _ _ _)))); try reflexivity.
  discriminate.
Defined.

(* ----------------------------------------------------------------- *)
(** *** Documents longer than ten pages *)

(** The page loop consults the document only at the indices of its range. *)
Lemma for_pages_ext (pages1 pages2 : list (outcome string)) (range : list nat) (acc : string) :
  (forall i d, In i range -> nth i pages1 d = nth i pages2 d) ->
  for_pages pages1 range acc = for_pages pages2 range acc.
Proof.
  revert acc. induction range as [|i rest IH]; intros acc H; [reflexivity|].
  cbn [for_pages]. rewrite (H i _ (or_introl eq_refl)).
  unfold bind, call. destruct (nth i pages2 _) as [t|e]; [|reflexivity].
  rewrite IH; [reflexivity|]. intros j d Hj. apply H. now right.
Qed.

(** X13. What [read_transcript] returns and does is settled by the first ten
    pages of the document: two documents served for the same response that
    agree on these pages give the same text and the same events, whatever
    their later pages hold, raise, or number. *)
Theorem read_transcript_ignores_later_pages
    (w1 w2 : World) (url : string) (r : response) (pages1 pages2 : list (outcome string)) :
  requests_get w1 url document_headers 15 = Ok r ->
  requests_get w2 url document_headers 15 = Ok r ->
  PdfReader w1 (content r) = Ok pages1 ->
  PdfReader w2 (content r) = Ok pages2 ->
  firstn 10 pages1 = firstn 10 pages2 ->
  read_transcript w1 url = read_transcript w2 url.
Proof.
  intros H1 H2 P1 P2 Hf.
  assert (Hlen : Nat.min 10 (List.length pages1) = Nat.min 10 (List.length pages2)).
  { rewrite <- !length_firstn. now rewrite Hf. }
  unfold read_transcript. f_equal. unfold download_and_extract.
  rewrite !bind_call, H1, H2, !bind_lift.
  destruct (raise_for_status url r) as [[]|e]; [|reflexivity].
  rewrite !bind_call, P1, P2, Hlen.
  rewrite (for_pages_ext pages1 pages2); [reflexivity|].
  intros i d Hi. apply in_seq in Hi.
  assert (Hi10 : i < 10) by lia.
  transitivity (nth i (firstn 10 pages1) d).
  - rewrite nth_firstn. apply Nat.ltb_lt in Hi10. now rewrite Hi10.
  - rewrite Hf, nth_firstn. apply Nat.ltb_lt in Hi10. now rewrite Hi10.
Qed.

Lemma read_transcript_ignores_later_pages_witness :
  PdfReader Example.w_all_up Example.pdf_bytes = Ok Example.fifteen_pages
  /\ PdfReader Example.w_ten_pages Example.pdf_bytes = Ok (firstn 10 Example.fifteen_pages)
  /\ read_transcript Example.w_all_up "https://www.screener.in/company/X/concalls/123/" =
     read_transcript Example.w_ten_pages "https://www.screener.in/company/X/concalls/123/".
Proof.
  split; [reflexivity|]. split; [reflexivity|].
  refine (read_transcript_ignores_later_pages Example.w_all_up Example.w_ten_pages _
            (mk_response 200 "OK" [] Example.pdf_bytes)
            Example.fifteen_pages (firstn 10 Example.fifteen_pages)
            _ _ _ _ _); reflexivity.
Defined.

(* ----------------------------------------------------------------- *)
(** *** Ratio names *)

Lemma dict_get_set {V : Type} (k k' : string) (v : V) (d : dict V) :
  dict_get k (dict_set k' v d) = if (k' =? k)%string then Some v else dict_get k d.
Proof.
  induction d as [|[k0 v0] r IH]; cbn [dict_set dict_get]; [reflexivity|].
  destruct (k0 =? k')%string eqn:E.
  - apply String.eqb_eq in E. subst k0. cbn [dict_get].
    now destruct (k' =? k)%string.
  - cbn [dict_get]. destruct (k0 =? k)%string eqn:E2; [|exact IH].
    apply String.eqb_eq in E2. subst k0. rewrite String.eqb_sym in E. now rewrite E.
Qed.

Lemma dict_get_keys {V : Type} (k : string) (d : dict V) :
  In k (map fst d) <-> dict_get k d <> None.
Proof.
  induction d as [|[k0 v0] r IH]; cbn [map fst In dict_get]; [tauto|].
  destruct (k0 =? k)%string eqn:E.
  - apply String.eqb_eq in E. split; [discriminate | now left].
  - apply String.eqb_neq in E. rewrite <- IH. tauto.
Qed.

(** An assignment to a name already held keeps the names and their order;
    an assignment to a new name adds it last. *)
Lemma dict_set_keys {V : Type} (k : string) (v : V) (d : dict V) :
  map fst (dict_set k v d) =
  match dict_get k d with
  | Some _ => map fst d
  | None => (map fst d ++ [k])%list
  end.
Proof.
  induction d as [|[k0 v0] r IH]; cbn [dict_set dict_get map fst app]; [reflexivity|].
  destruct (k0 =? k)%string; cbn [map fst]; [reflexivity|].
  rewrite IH. now destruct (dict_get k r).
Qed.

Lemma dict_set_NoDup {V : Type} (k : string) (v : V) (d : dict V) :
  NoDup (map fst d) -> NoDup (map fst (dict_set k v d)).
Proof.
  intro H. rewrite dict_set_keys. destruct (dict_get k d) eqn:E; [exact H|].
  apply NoDup_app; [exact H | repeat constructor; intros [] | ].
  intros a Ha [<-|[]]. apply dict_get_keys in Ha. now apply Ha.
Qed.

Lemma dict_set_length {V : Type} (k : string) (v : V) (d : dict V) :
  List.length (dict_set k v d) <= S (List.length d).
Proof.
  rewrite <- (length_map fst (dict_set k v d)), dict_set_keys.
  destruct (dict_get k d); rewrite ?List.length_app, !List.length_map; cbn [List.length]; lia.
Qed.

Lemma assigned_entries (items : list node) (d : dict string) :
  fold_left
    (fun ratios_data li =>
       match find is_name_span li, find is_value_span li with
       | Some name_tag, Some value_tag =>
           dict_set (get_text "" name_tag) (ratio_value value_tag) ratios_data
       | _, _ => ratios_data
       end) items d =
  fold_left (fun d p => dict_set (fst p) (snd p) d)
    (flat_map (fun li => match entry_ratio li with Some p => [p] | None => [] end) items) d.
Proof.
  revert d. induction items as [|li items IH]; intro d; [reflexivity|].
  cbn [fold_left flat_map]. rewrite fold_left_app, IH. f_equal.
  unfold entry_ratio.
  destruct (find is_name_span li); [|reflexivity].
  now destruct (find is_value_span li).
Qed.

(** The ratio dictionary is the entries' pairs assigned in order. *)
Lemma ratios_of_container_pairs (c : node) :
  ratios_of_container c =
  fold_left (fun d p => dict_set (fst p) (snd p) d) (entry_pairs c) [].
Proof. apply assigned_entries. Qed.

Lemma assigned_lookup (k : string) (pairs : list (string * string)) (d : dict string) :
  dict_get k (fold_left (fun d p => dict_set (fst p) (snd p) d) pairs d) =
  fold_left (fun acc kv => if (fst kv =? k)%string then Some (snd kv) else acc)
            pairs (dict_get k d).
Proof.
  revert d. induction pairs as [|[k' v'] r IH]; intro d; [reflexivity|].
  cbn [fold_left fst snd]. now rewrite IH, dict_get_set.
Qed.

Lemma assigned_NoDup (pairs : list (string * string)) (d : dict string) :
  NoDup (map fst d) ->
  NoDup (map fst (fold_left (fun d p => dict_set (fst p) (snd p) d) pairs d)).
Proof.
  revert d. induction pairs as [|p r IH]; intros d H; [exact H|].
  cbn [fold_left]. apply IH. now apply dict_set_NoDup.
Qed.

Lemma assigned_keys (k : string) (pairs : list (string * string)) (d : dict string) :
  In k (map fst (fold_left (fun d p => dict_set (fst p) (snd p) d) pairs d)) <->
  In k (map fst d) \/ In k (map fst pairs).
Proof.
  revert d. induction pairs as [|[k' v'] r IH]; intro d; cbn [fold_left map fst snd In]; [tauto|].
  rewrite IH, !dict_get_keys, dict_get_set.
  destruct (k' =? k)%string eqn:E.
  - apply String.eqb_eq in E. split; [intros _; right; now left | intros _; left; discriminate].
  - apply String.eqb_neq in E. tauto.
Qed.

Lemma assigned_length (pairs : list (string * string)) (d : dict string) :
  List.length (fold_left (fun d p => dict_set (fst p) (snd p) d) pairs d)
  <= List.length d + List.length pairs.
Proof.
  revert d. induction pairs as [|p r IH]; intro d; cbn [fold_left List.length]; [lia|].
  specialize (IH (dict_set (fst p) (snd p) d)).
  pose proof (dict_set_length (fst p) (snd p) d). lia.
Qed.

Lemma entry_pairs_length (c : node) :
  List.length (entry_pairs c) <= List.length (find_all is_ratio_item c).
Proof.
  unfold entry_pairs. induction (find_all is_ratio_item c) as [|li items IH]; [reflexivity|].
  cbn [flat_map]. rewrite List.length_app. destruct (entry_ratio li); cbn [List.length]; lia.
Qed.

(** X14. A ratio name occurs once in what the ratio extractor returns, at
    the place of its first entry and with the value of its last one: the
    names returned are those of the entries, looking a name up gives the
    normalized value of the last entry of that name, and there are no more
    ratios than entries.  The same holds of what [get_company_ratios]
    returns, in every world. *)
Theorem ratio_names_unique :
  (forall c : node,
      NoDup (map fst (ratios_of_container c))
      /\ (forall k, dict_get k (ratios_of_container c) = last_value k (entry_pairs c))
      /\ (forall k, In k (map fst (ratios_of_container c)) <-> In k (map fst (entry_pairs c)))
      /\ List.length (ratios_of_container c) <= List.length (find_all is_ratio_item c))
  /\ (forall html_content : markup, NoDup (map fst (ratios_of_page html_content)))
  /\ (forall (w : World) (ticker : string), NoDup (map fst (local_ratios w ticker)))
  /\ ratios_of_page Example.repeated_ratio_page = [("P/E", "25"); ("ROE", "18 %")].
Proof.
  assert (Hc : forall c : node, NoDup (map fst (ratios_of_container c))).
  { intro c. rewrite ratios_of_container_pairs. apply assigned_NoDup. constructor. }
  assert (Hp : forall html_content : markup, NoDup (map fst (ratios_of_page html_content))).
  { intro html_content. unfold ratios_of_page.
    destruct (find is_top_ratios (BeautifulSoup html_content)); [apply Hc | constructor]. }
  split; [|split; [exact Hp|split]].
  - intro c. split; [apply Hc|]. split; [|split].
    + intro k. rewrite ratios_of_container_pairs. apply assigned_lookup.
    + intro k. rewrite ratios_of_container_pairs, assigned_keys. cbn [map In]. tauto.
    + rewrite ratios_of_container_pairs.
      pose proof (assigned_length (entry_pairs c) []).
      pose proof (entry_pairs_length c). cbn [List.length] in *. lia.
  - intros w ticker. unfold local_ratios, get_company_ratios.
    rewrite try_except_result_events, bind_call.
    destruct (requests_get w _ _ _) as [r|e]; [|constructor].
    destruct (negb (status_code r =? 200)%Z); [constructor | apply Hp].
  - vm_compute. reflexivity.
Qed.

(* ----------------------------------------------------------------- *)
(** *** Missing keys *)

(** X15. Without both keys the page shows the missing-keys error and goes
    on; one key alone, or an empty one, counts as none.  A press of the
    button then still requests the profile page, after which the remote
    fetch fails on the unbound client without calling the actor, the
    failure is shown, and the request stops: no page of links, no document
    and no generation is requested. *)
Theorem missing_keys_halt (w : World) (env : environ) (ticker : string) :
  clients_bound env = false ->
  ticker <> "" ->
  script w env true ticker =
    (Ok tt,
     [StError msg_missing_keys;
      StatusWrite msg_scraping;
      HttpGet (profile_url ticker) profile_headers 10;
      StatusWrite msg_gathering;
      StError "Data Acquisition Error: name 'apify_client' is not defined";
      StError msg_no_data;
      StStop])
  /\ script w env false ticker = (Ok tt, [StError msg_missing_keys])
  /\ (forall k, clients_bound (mk_environ (Some k) None) = false
                /\ clients_bound (mk_environ None (Some k)) = false
                /\ clients_bound (mk_environ (Some k) (Some "")) = false
                /\ clients_bound (mk_environ (Some "") (Some k)) = false)
  /\ (forall t, start_deep_research_with w (get_financial_data w) (generate_analysis w) t =
                start_deep_research w t).
Proof.
  intros Hk Ht.
  assert (Hne : PyStr.nonempty ticker = true) by (destruct ticker; [contradiction | reflexivity]).
  split; [|split; [|split]].
  - unfold script. rewrite Hk, bind_emit. unfold start_deep_research_with.
    rewrite Hne. cbn [negb]. rewrite bind_emit, bind_result_events.
    rewrite get_company_ratios_result, get_company_ratios_events.
    reflexivity.
  - unfold script. rewrite Hk. reflexivity.
  - intro k. now destruct k.
  - reflexivity.
Qed.

Lemma missing_keys_halt_witness :
  clients_bound (mk_environ (Some "token") None) = false
  /\ filter is_actor_call
       (events (script Example.w_all_up (mk_environ (Some "token") None) true "X")) = []
  /\ truthy (remote_ratios Example.w_all_up "X") = true.
Proof.
  split; [reflexivity|]. split; [|vm_compute; reflexivity].
  refine (eq_trans (f_equal (fun m => filter is_actor_call (events m))
            (proj1 (missing_keys_halt Example.w_all_up (mk_environ (Some "token") None) "X"
                      _ _))) _); [reflexivity | discriminate | reflexivity].
Defined.

(* ----------------------------------------------------------------- *)
(** *** Where the documents come from *)

(** The documents a request downloads are those of its transcript stage. *)
Lemma start_deep_research_downloads (w : World) (ticker : string) :
  downloads (events (start_deep_research w ticker)) =
  if PyStr.nonempty ticker && truthy (remote_ratios w ticker)
  then downloads (events (collect_transcripts w (remote_links w ticker)))
  else [].
Proof.
  destruct ticker as [|c t]; [reflexivity|].
  rewrite (start_deep_research_run w (String c t) eq_refl).
  set (tk := String c t). cbn [PyStr.nonempty andb].
  destruct (get_financial_data_filters w tk) as [_ [_ [_ [Hfd _]]]].
  destruct (truthy (remote_ratios w tk)); cbn [events snd].
  - destruct (synthesize_kind w (audit_prompt w tk)) as [Hsk _].
    destruct (synthesis_trace_facts _ Hsk) as [Hsd _].
    change (downloads (StatusWrite ?s :: ?l)) with (downloads l).
    rewrite downloads_app, get_company_ratios_events.
    change (downloads [HttpGet ?u profile_headers 10]) with (@nil string).
    cbn [app]. change (downloads (StatusWrite ?s :: ?l)) with (downloads l).
    rewrite !downloads_app, Hfd.
    change (downloads (StatusWrite ?s :: ?l)) with (downloads l).
    rewrite Hsd, app_nil_r. reflexivity.
  - change (downloads (StatusWrite ?s :: ?l)) with (downloads l).
    rewrite downloads_app, get_company_ratios_events.
    change (downloads [HttpGet ?u profile_headers 10]) with (@nil string).
    cbn [app]. change (downloads (StatusWrite ?s :: ?l)) with (downloads l).
    rewrite downloads_app, Hfd. reflexivity.
Qed.

Lemma firstn_member {A : Type} (n : nat) (l : list A) (x : A) :
  In x (firstn n l) -> In x l.
Proof.
  intro H. rewrite <- (firstn_skipn n l). apply in_or_app. now left.
Qed.

(** X16. Every document a request downloads comes from the page of links of
    its ticker: the page was served with status 200, the URL is among the
    first three links extracted from it, it is absolute, and the remote
    ratios were not empty. *)
Theorem downloads_come_from_links_page (w : World) (ticker url : string) :
  In url (downloads (events (start_deep_research w ticker))) ->
  ticker <> ""
  /\ truthy (remote_ratios w ticker) = true
  /\ PyStr.startswith "http" url = true
  /\ exists r,
       requests_get w (consolidated_url ticker) page_headers 10 = Ok r
       /\ status_code r = 200%Z
       /\ In url (firstn 3 (extract_transcript_links (text r))).
Proof.
  rewrite start_deep_research_downloads. intro Hin.
  destruct ticker as [|c t]; [destruct Hin|]. set (tk := String c t) in *.
  cbn [PyStr.nonempty andb] in Hin.
  destruct (truthy (remote_ratios w tk)) eqn:Hr; [|destruct Hin].
  split; [discriminate|]. split; [reflexivity|].
  assert (Hl : exists r, requests_get w (consolidated_url tk) page_headers 10 = Ok r
                         /\ status_code r = 200%Z
                         /\ In url (firstn 3 (extract_transcript_links (text r)))).
  { unfold remote_links in Hin.
    destruct (get_financial_data_cases w tk)
      as [[e [_ H]]|[[run [e [_ [_ H]]]]|[[run [id [e [_ [_ [_ H]]]]]]
          |[[run [id [ra [e [_ [_ [_ [_ H]]]]]]]]
           |[run [id [ra [r [_ [_ [_ [Hg H]]]]]]]]]]]];
      rewrite H in Hin; cbn [result fst snd] in Hin; try solve [destruct Hin].
    destruct (collect_transcripts_run w
                (if (status_code r =? 200)%Z then extract_transcript_links (text r) else []))
      as [_ [Hd _]].
    rewrite Hd in Hin. exists r. split; [exact Hg|].
    destruct (Z.eqb_spec (status_code r) 200) as [E|E]; [now split | destruct Hin]. }
  split; [|exact Hl].
  destruct Hl as [r [_ [_ Hu]]]. apply firstn_member in Hu.
  rewrite extract_transcript_links_hrefs in Hu.
  apply in_map_iff in Hu. destruct Hu as [link [<- _]]. apply full_link_absolute.
Qed.

Lemma downloads_come_from_links_page_witness :
  downloads (events (start_deep_research Example.w_all_up "X")) =
    ["https://www.screener.in/company/X/concalls/123/"]
  /\ PyStr.startswith "http" "https://www.screener.in/company/X/concalls/123/" = true.
Proof.
  split; [vm_compute; reflexivity|].
  refine (proj1 (proj2 (proj2 (downloads_come_from_links_page Example.w_all_up "X"
            "https://www.screener.in/company/X/concalls/123/" _)))).
  vm_compute. left. reflexivity.
Defined.
